(** * Heart-failure preprocessing pipeline: [preprocessing/automate_jesika.py]

    A shallow embedding of the four stages of the script (loader, outlier
    filter, feature transformer, split-and-scale persister) and of its
    entry point, with the properties its specification states about them.

    Numbers are IEEE-754 binary64 values (Python's [float], numpy's
    [float64]), taken as Rocq's primitive floats; a missing value is NaN.
    The pandas calls are embedded by what they do on such data; the two
    scikit-learn objects (the stratified shuffle split and the standard
    scaler) are an interface the development is parametric in. *)

From Stdlib Require Import Floats ZArith Uint63 Bool List.
From stdpp Require Import base option list strings gmap pretty.

Set Default Proof Using "Type".
#[local] Set Warnings "-inexact-float".

(** ** IEEE comparisons *)

Module F64.

Definition nan : float := PrimFloat.nan.

(** [x != x], numpy's [isnan]. *)
Definition isnan (x : float) : bool := PrimFloat.is_nan x.

(** numpy orders NaN after every number when it sorts and searches:
    [a < b || (b != b && a == a)]. *)
Definition npy_lt (a b : float) : bool :=
  PrimFloat.ltb a b || (isnan b && negb (isnan a)).

Definition of_nat (n : nat) : float := PrimFloat.of_uint63 (Uint63.of_Z (Z.of_nat n)).

(** Integer part of a non-negative finite float (0 on anything else). *)
Definition floor_nat (x : float) : nat :=
  match Prim2SF x with
  | S754_finite false m e => Z.to_nat (Z.shiftl (Zpos m) e)
  | _ => 0
  end.

(** The least integer not below a non-negative finite float. *)
Definition ceil_nat (x : float) : nat :=
  let k := floor_nat x in
  if PrimFloat.ltb (of_nat k) x then S k else k.

(** The order the IEEE comparison puts on the (exponent, mantissa) pairs of same-sign finite values. *)
Definition lex (e1 : Z) (m1 : positive) (e2 : Z) (m2 : positive) : comparison :=
  match (e1 ?= e2)%Z with
  | Lt => Lt
  | Gt => Gt
  | Eq => Pos.compare_cont Eq m1 m2
  end.

End F64.

(** ** Tabular data *)

(** The three categories [pd.cut] hands out (the [labels] list). *)
Inductive age_label := Adult | Senior | Elderly.

Global Instance age_label_eq_dec : EqDecision age_label.
Proof. solve_decision. Defined.

(** A cell of a frame: a number ([int64]/[float64] columns, NaN when
    missing), a boolean indicator, or a category ([None] is the unset
    category, pandas' NaN of a categorical column). *)
Inductive cell :=
  | Num (x : float)
  | Flag (b : bool)
  | Cat (c : option age_label).

(** A record of the dataset with its index label. *)
Record Row := mkRow { label : Z; cells : list cell }.

Record DataFrame := mkDF { columns : list string; rows : list Row }.

Record Series := mkSeries { sname : string; sindex : list Z; svalues : list cell }.

Definition shape (df : DataFrame) : nat * nat := (length (rows df), length (columns df)).

(** ** Exceptions *)

Inductive exn_class :=
  | FileNotFoundError | OSError | ParserError | URLError
  | KeyError | TypeError | ValueError | IndexError.

(** Every class above derives from Python's [Exception]; [msg] is [str(e)]. *)
Record exn := Exn { cls : exn_class; msg : string }.

Inductive result (A : Type) :=
  | Ok (a : A)
  | Raise (e : exn).
Arguments Ok {A} a.
Arguments Raise {A} e.

Global Instance result_ret : MRet result := @Ok.
Global Instance result_bind : MBind result := fun A B f r =>
  match r with
  | Ok a => f a
  | Raise e => Raise e
  end.

Fixpoint mapR {A B} (f : A -> result B) (l : list A) : result (list B) :=
  match l with
  | [] => Ok []
  | a :: l' => b ← f a; bs ← mapR f l'; Ok (b :: bs)
  end.

(** ** pandas on frames *)

Module pd.

Fixpoint index_of (c : string) (cols : list string) : option nat :=
  match cols with
  | [] => None
  | c' :: cols' => if decide (c' = c) then Some 0 else S <$> index_of c cols'
  end.

(** ['c' in df.columns] *)
Definition has_column (df : DataFrame) (c : string) : bool :=
  bool_decide (c ∈ columns df).

(** The cell of a record at a column position; a cell that is not there is
    a missing value. *)
Definition cell_at (p : nat) (r : Row) : cell := nth p (cells r) (Num F64.nan).

Definition quote (c : string) : string := "'" +:+ c +:+ "'".

(** [df[c]]: the column labelled [c] (labels are taken distinct, as
    [read_csv] makes them), or [KeyError]. *)
Definition getitem (df : DataFrame) (c : string) : result Series :=
  match index_of c (columns df) with
  | None => Raise (Exn KeyError (quote c))
  | Some p => Ok (mkSeries c (label <$> rows df) (cell_at p <$> rows df))
  end.

(** The cells of a record that stay when the columns named [c] go. *)
Fixpoint drop_cells (c : string) (cols : list string) (cs : list cell) : list cell :=
  match cols, cs with
  | c' :: cols', x :: cs' =>
      if decide (c' = c) then drop_cells c cols' cs' else x :: drop_cells c cols' cs'
  | _, _ => []
  end.

(** [df.drop(columns=[c])]: a new frame; a label that is no column raises. *)
Definition drop (df : DataFrame) (c : string) : result DataFrame :=
  if has_column df c then
    Ok (mkDF (filter (fun c' => c' <> c) (columns df))
             ((fun r => mkRow (label r) (drop_cells c (columns df) (cells r))) <$> rows df))
  else Raise (Exn KeyError ("[" +:+ quote c +:+ "] not found in axis")).

(** Overwrite the cell at position [p] (pad with missing values up to it). *)
Fixpoint set_cell (p : nat) (x : cell) (cs : list cell) : list cell :=
  match p, cs with
  | 0, [] => [x]
  | 0, _ :: cs' => x :: cs'
  | S p', [] => Num F64.nan :: set_cell p' x []
  | S p', y :: cs' => y :: set_cell p' x cs'
  end.

(** [df[c] = values] for values computed from a column of [df] itself (same
    index, so the assignment is by position): an existing column is
    overwritten in place, a new one is added last. *)
Definition setitem (df : DataFrame) (c : string) (vs : list cell) : DataFrame :=
  let p := default (length (columns df)) (index_of c (columns df)) in
  mkDF (if index_of c (columns df) is Some _ then columns df else columns df ++ [c])
       (zip_with (fun r v => mkRow (label r) (set_cell p v (cells r))) (rows df) vs).

(** [df[mask]] for a boolean mask computed from [df] itself. *)
Fixpoint boolean_index (rs : list Row) (mask : list bool) : list Row :=
  match rs, mask with
  | r :: rs', b :: mask' =>
      if b then r :: boolean_index rs' mask' else boolean_index rs' mask'
  | _, _ => []
  end.

(** [df.reset_index(drop=True)]: the labels become the positions. *)
Definition reset_index (df : DataFrame) : DataFrame :=
  mkDF (columns df) (imap (fun i r => mkRow (Z.of_nat i) (cells r)) (rows df)).

Definition reset_index_series (s : Series) : Series :=
  mkSeries (sname s) (Z.of_nat <$> seq 0 (length (svalues s))) (svalues s).

(** The numbers of a numeric column; arithmetic on any other kind of column
    raises [TypeError]. *)
Definition to_numeric (s : Series) : result (list float) :=
  mapR (fun c => match c with
                 | Num x => Ok x
                 | _ => Raise (Exn TypeError "unsupported operand type")
                 end) (svalues s).

(** *** [Series.quantile] (linear interpolation, missing values skipped) *)

Fixpoint insert_sorted (x : float) (l : list float) : list float :=
  match l with
  | [] => [x]
  | y :: l' => if PrimFloat.leb x y then x :: l else y :: insert_sorted x l'
  end.

Definition sort (l : list float) : list float := foldr insert_sorted [] l.

Definition lerp (a b t : float) : float :=
  let d := PrimFloat.sub b a in
  if PrimFloat.leb 0.5 t then PrimFloat.sub b (PrimFloat.mul d (PrimFloat.sub 1 t))
  else PrimFloat.add a (PrimFloat.mul d t).

Definition quantile (xs : list float) (q : float) : float :=
  let vs := sort (filter (fun x => F64.isnan x = false) xs) in
  match vs with
  | [] => F64.nan
  | _ =>
      let n := length vs in
      let virt := PrimFloat.mul (F64.of_nat (n - 1)) q in
      let prev := F64.floor_nat virt in
      if bool_decide (n - 1 <= prev) then nth (n - 1) vs F64.nan
      else lerp (nth prev vs F64.nan) (nth (S prev) vs F64.nan)
                (PrimFloat.sub virt (F64.of_nat prev))
  end.

(** *** [pd.cut] with the defaults [right=True], [include_lowest=False] *)

(** numpy's [searchsorted(side='left')]: a binary search for the first
    position whose edge is not below the key. *)
Fixpoint binsearch_left (fuel : nat) (arr : list float) (key : float) (lo hi : nat) : nat :=
  match fuel with
  | 0 => lo
  | S fuel' =>
      if bool_decide (lo < hi) then
        let mid := lo + (hi - lo) / 2 in
        if F64.npy_lt (nth mid arr F64.nan) key
        then binsearch_left fuel' arr key (S mid) hi
        else binsearch_left fuel' arr key lo mid
      else lo
  end.

Definition searchsorted_left (arr : list float) (key : float) : nat :=
  binsearch_left (S (length arr)) arr key 0 (length arr).

(** The bin of one value: [ids = bins.searchsorted(x, side='left')]; the
    value is unset when it is NaN or falls off either end
    ([ids == len(bins)] or [ids == 0]); else it takes [labels[ids - 1]]. *)
Definition cut1 (bins : list float) (labels : list age_label) (x : float) : option age_label :=
  let ids := searchsorted_left bins x in
  if F64.isnan x || bool_decide (ids = length bins) || bool_decide (ids = 0)
  then None
  else labels !! (ids - 1).

Definition cut (s : Series) (bins : list float) (labels : list age_label) : result (list cell) :=
  xs ← to_numeric s; Ok (map (fun x => Cat (cut1 bins labels x)) xs).

(** *** [pd.get_dummies(df, columns=[c], prefix=p)] on a categorical column *)

Definition categories : list age_label := [Adult; Senior; Elderly].

Definition label_name (l : age_label) : string :=
  match l with Adult => "Adult" | Senior => "Senior" | Elderly => "Elderly" end.

(** One indicator per category; an unset category sets none of them. *)
Definition is_category (l : age_label) (c : cell) : bool :=
  match c with
  | Cat (Some l') => bool_decide (l' = l)
  | _ => false
  end.

Definition indicators (c : cell) : list cell :=
  (fun l => Flag (is_category l c)) <$> categories.

Definition get_dummies (df : DataFrame) (c : string) (prefix : string) : result DataFrame :=
  match index_of c (columns df) with
  | None => Raise (Exn KeyError ("None of [" +:+ quote c +:+ "] are in the [columns]"))
  | Some p =>
      Ok (mkDF (filter (fun c' => c' <> c) (columns df)
                  ++ ((fun l => prefix +:+ "_" +:+ label_name l) <$> categories))
               ((fun r => mkRow (label r)
                            (drop_cells c (columns df) (cells r) ++ indicators (cell_at p r)))
                  <$> rows df))
  end.

End pd.

(** ** The world the script runs in *)

(** What is stored under a path: a table ([to_csv(index=False)] writes the
    header and the records, no index), or something [read_csv] fails on. *)
Inductive file :=
  | Csv (header : list string) (records : list (list cell))
  | Unreadable (e : exn).

Record World := mkWorld {
  files : gmap string file;             (* the working directory *)
  fetch : string -> result DataFrame;   (* what reading a URL gives *)
  write_fault : string -> option exn;   (* paths that cannot be written *)
  stdout : list string;                 (* lines printed so far *)
  entropy : Z                           (* seed of the ambient generator *)
}.

Definition set_files (fs : gmap string file) (w : World) : World :=
  mkWorld fs (fetch w) (write_fault w) (stdout w) (entropy w).

Definition set_stdout (out : list string) (w : World) : World :=
  mkWorld (files w) (fetch w) (write_fault w) out (entropy w).

(** State and exceptions: a computation ends with a value or a raised
    exception, and a world. *)
Definition M (A : Type) : Type := World -> result A * World.

Global Instance M_ret : MRet M := fun A a w => (Ok a, w).
Global Instance M_bind : MBind M := fun A B f m w =>
  match m w with
  | (Ok a, w') => f a w'
  | (Raise e, w') => (Raise e, w')
  end.

Definition lift {A} (r : result A) : M A := fun w => (r, w).

(** [try: body except Exception as e: handler] *)
Definition try_except {A} (body : M A) (handler : exn -> M A) : M A := fun w =>
  match body w with
  | (Ok a, w') => (Ok a, w')
  | (Raise e, w') => handler e w'
  end.

Definition print (line : string) : M unit := fun w =>
  (Ok (), set_stdout (stdout w ++ [line]) w).

Module os.

Definition path_exists (p : string) : M bool := fun w =>
  (Ok (bool_decide (is_Some (files w !! p))), w).

End os.

Definition is_url (src : string) : bool :=
  String.prefix "http://" src || String.prefix "https://" src.

Definition frame_of (header : list string) (records : list (list cell)) : DataFrame :=
  mkDF header (imap (fun i cs => mkRow (Z.of_nat i) cs) records).

(** [pd.read_csv(src)] *)
Definition read_csv (src : string) : M DataFrame := fun w =>
  if is_url src then (fetch w src, w)
  else match files w !! src with
       | None => (Raise (Exn FileNotFoundError ("No such file or directory: " +:+ pd.quote src)), w)
       | Some (Csv h rs) => (Ok (frame_of h rs), w)
       | Some (Unreadable e) => (Raise e, w)
       end.

(** [df.to_csv(path, index=False)] *)
Definition to_csv (df : DataFrame) (path : string) : M unit := fun w =>
  match write_fault w path with
  | Some e => (Raise e, w)
  | None => (Ok (), set_files (<[path := Csv (columns df) (cells <$> rows df)]> (files w)) w)
  end.

Definition shape_str (df : DataFrame) : string :=
  "(" +:+ pretty (fst (shape df)) +:+ ", " +:+ pretty (snd (shape df)) +:+ ")".

(** ** The script *)

Definition filename : string := "heart_failure_raw.csv".

Definition url : string :=
  "https://archive.ics.uci.edu/ml/machine-learning-databases/00519/heart_failure_clinical_records_dataset.csv".

Definition warn_missing : string :=
  "[WARNING] File '" +:+ filename +:+ "' tidak ditemukan. Mencoba download dari UCI...".

Definition err_read (e : exn) : string := "[ERROR] Gagal membaca file: " +:+ msg e.

Definition err_download (e : exn) : string := "[ERROR] Gagal download: " +:+ msg e.

(** [load_data()]: the frame, or [None]. *)
Definition load_data : M (option DataFrame) :=
  found ← os.path_exists filename;
  if (found : bool) then
    try_except
      (df ← read_csv filename;
       print ("[INFO] Dataset lokal ditemukan: " +:+ filename);;
       print ("[INFO] Ukuran awal: " +:+ shape_str df);;
       mret (Some df))
      (fun e => print (err_read e);; mret None)
  else
    print warn_missing;;
    try_except
      (df ← read_csv url;
       to_csv df filename;;
       print ("[INFO] Berhasil download dan simpan ke '" +:+ filename +:+ "'");;
       mret (Some df))
      (fun e => print (err_download e);; mret None).

(** The two bounds [Q1 - 1.5 * IQR] and [Q3 + 1.5 * IQR] of a column. *)
Definition iqr_bounds (xs : list float) : float * float :=
  let Q1 := pd.quantile xs 0.25 in
  let Q3 := pd.quantile xs 0.75 in
  let IQR := PrimFloat.sub Q3 Q1 in
  (PrimFloat.sub Q1 (PrimFloat.mul 1.5 IQR), PrimFloat.add Q3 (PrimFloat.mul 1.5 IQR)).

(** [(x >= lower_bound) & (x <= upper_bound)] *)
Definition within (lower_bound upper_bound x : float) : bool :=
  PrimFloat.leb lower_bound x && PrimFloat.leb x upper_bound.

(** [handle_outliers(df, column)] *)
Definition handle_outliers (df : DataFrame) (column : string) : M DataFrame :=
  s ← lift (pd.getitem df column);
  xs ← lift (pd.to_numeric s);
  let '(lower_bound, upper_bound) := iqr_bounds xs in
  let initial_count := fst (shape df) in
  let df_clean :=
    mkDF (columns df) (pd.boolean_index (rows df) (map (within lower_bound upper_bound) xs)) in
  let final_count := fst (shape df_clean) in
  print ("[INFO] Outlier handling '" +:+ column +:+ "': Dibuang "
           +:+ pretty (initial_count - final_count) +:+ " baris.");;
  mret (pd.reset_index df_clean).

Definition bins : list float := [0; 60; 75; 120]%float.
Definition labels : list age_label := [Adult; Senior; Elderly].

(** Step 1 of [preprocess_data]: [if 'time' in df.columns: df = df.drop(...)] *)
Definition drop_time (df : DataFrame) : result DataFrame :=
  if pd.has_column df "time" then pd.drop df "time" else Ok df.

(** Step 2: [df['age_category'] = pd.cut(df['age'], bins=bins, labels=labels)] *)
Definition bin_age (df : DataFrame) : result DataFrame :=
  age ← pd.getitem df "age";
  cats ← pd.cut age bins labels;
  Ok (pd.setitem df "age_category" cats).

(** [preprocess_data(df)]: the pair [(X, y)]. *)
Definition preprocess_data (df : DataFrame) : M (DataFrame * Series) :=
  df ← lift (drop_time df);
  df ← lift (bin_age df);
  df ← lift (pd.get_dummies df "age_category" "age");
  df ← handle_outliers df "serum_creatinine";
  X ← lift (pd.drop df "DEATH_EVENT");
  y ← lift (pd.getitem df "DEATH_EVENT");
  mret (X, y).

(** ** scikit-learn *)

(** The two scikit-learn objects the script uses. Their code is not part of
    the script: the development holds for every implementation.
    - [seeded n] is numpy's [RandomState(n)];
    - [split_indices g test_size n stratify] is one draw of the (stratified,
      when [stratify] is given) shuffle split of [n] samples with generator
      [g]: the positions of the training and of the testing samples;
    - [fit] and [transform] are [StandardScaler.fit] and
      [StandardScaler.transform] on a numeric array. *)
Class Sklearn := {
  RandomState : Type;
  seeded : Z -> RandomState;
  split_indices :
    RandomState -> float -> nat -> option (list cell) -> result (list nat * list nat);
  StandardScaler : Type;
  fit : list (list float) -> result StandardScaler;
  transform : StandardScaler -> list (list float) -> result (list (list float))
}.


(** What scikit-learn documents of [transform]: the array returned has one
    row per sample given. *)
Class ScalerKeepsRows `{Sklearn} : Prop :=
  transform_rows scaler a a' : transform scaler a = Ok a' -> length a' = length a.

Section Persister.

Context `{Sklearn}.

(** [check_random_state]: an integer seeds a fresh generator; [None] is
    the ambient generator of the process. *)
Definition check_random_state (random_state : option Z) : M RandomState := fun w =>
  match random_state with
  | Some seed => (Ok (seeded seed), w)
  | None => (Ok (seeded (entropy w)), w)
  end.

(** [a.iloc[positions]] *)
Definition take {A} (l : list A) (positions : list nat) : result (list A) :=
  mapR (fun i => match l !! i with
                 | Some a => Ok a
                 | None => Raise (Exn IndexError "positional indexers are out-of-bounds")
                 end) positions.

Definition iloc (df : DataFrame) (positions : list nat) : result DataFrame :=
  rs ← take (rows df) positions; Ok (mkDF (columns df) rs).

Definition iloc_series (s : Series) (positions : list nat) : result Series :=
  ls ← take (sindex s) positions;
  vs ← take (svalues s) positions;
  Ok (mkSeries (sname s) ls vs).

(** [train_test_split(X, y, test_size=..., random_state=..., stratify=...)] *)
Definition train_test_split (X : DataFrame) (y : Series) (test_size : float)
    (random_state : option Z) (stratify : option Series)
    : M (DataFrame * DataFrame * Series * Series) :=
  if bool_decide (length (rows X) = length (svalues y)) then
    g ← check_random_state random_state;
    '(train, test) ← lift (split_indices g test_size (length (rows X)) (svalues <$> stratify));
    X_train ← lift (iloc X train);
    X_test ← lift (iloc X test);
    y_train ← lift (iloc_series y train);
    y_test ← lift (iloc_series y test);
    mret (X_train, X_test, y_train, y_test)
  else
    lift (Raise (Exn ValueError "Found input variables with inconsistent numbers of samples")).

(** The frame as the numeric array the scaler works on. *)
Definition to_array (df : DataFrame) : result (list (list float)) :=
  mapR (fun r => mapR (fun c => match c with
                                | Num x => Ok x
                                | Flag b => Ok (if b then 1 else 0)%float
                                | Cat _ => Raise (Exn ValueError "could not convert string to float")
                                end) (cells r)) (rows df).

(** [pd.DataFrame(array, columns=columns)] *)
Definition from_array (a : list (list float)) (cols : list string) : result DataFrame :=
  if forallb (fun r => bool_decide (length r = length cols)) a then
    Ok (frame_of cols (map (map Num) a))
  else Raise (Exn ValueError "Shape of passed values does not match the columns").

(** [pd.concat([df, s], axis=1)]: the records are joined on their labels;
    what one side lacks is a missing value. *)
Definition concat_columns (df : DataFrame) (s : Series) : DataFrame :=
  let items := zip (sindex s) (svalues s) in
  let lookup (l : Z) : cell :=
    default (Num F64.nan) ((fun q => snd (snd q)) <$> list_find (fun p => fst p = l) items) in
  let joined := (fun r => mkRow (label r) (cells r ++ [lookup (label r)])) <$> rows df in
  let extra :=
    (fun p : Z * cell =>
       mkRow (fst p) (replicate (length (columns df)) (Num F64.nan) ++ [snd p]))
      <$> filter (fun p : Z * cell => fst p ∉ (label <$> rows df)) items in
  mkDF (columns df ++ [sname s]) (joined ++ extra).

(** Line 91: [train_test_split(X, y, test_size=0.2, random_state=42, stratify=y)] *)
Definition split (X : DataFrame) (y : Series) : M (DataFrame * DataFrame * Series * Series) :=
  train_test_split X y 0.2%float (Some 42%Z) (Some y).

(** Lines 94-98: [scaler.fit_transform(X_train)], then
    [scaler.transform(X_test)] with the scaler the first call fitted. *)
Definition scale (X_train X_test : DataFrame) : result (list (list float) * list (list float)) :=
  a_train ← to_array X_train;
  scaler ← fit a_train;
  X_train_scaled ← transform scaler a_train;
  a_test ← to_array X_test;
  X_test_scaled ← transform scaler a_test;
  Ok (X_train_scaled, X_test_scaled).

(** [save_prepared_data(X, y)] *)
Definition save_prepared_data (X : DataFrame) (y : Series) : M unit :=
  '(X_train, X_test, y_train, y_test) ← split X y;
  '(X_train_scaled, X_test_scaled) ← lift (scale X_train X_test);
  let columns := columns X in
  X_train_final ← lift (from_array X_train_scaled columns);
  X_test_final ← lift (from_array X_test_scaled columns);
  let train_set := concat_columns X_train_final (pd.reset_index_series y_train) in
  let test_set := concat_columns X_test_final (pd.reset_index_series y_test) in
  to_csv train_set "data_train.csv";;
  to_csv test_set "data_test.csv";;
  print "[INFO] Data berhasil disimpan: 'data_train.csv' dan 'data_test.csv'";;
  print ("[INFO] Ukuran Data Train: " +:+ shape_str train_set);;
  print ("[INFO] Ukuran Data Test : " +:+ shape_str test_set).

(** The body of [if __name__ == "__main__":]. *)
Definition main : M unit :=
  print "--- MULAI PROSES OTOMATISASI ---";;
  df ← load_data;
  match df with
  | Some df => '(X, y) ← preprocess_data df; save_prepared_data X y
  | None => mret ()
  end;;
  print "--- SELESAI ---".

End Persister.

(** ** The bucketing the specification words describe *)

(** Ranges closed on the left, [[0,60)], [[60,75)], [[75,120]]. *)
Definition left_closed_bucket (x : float) : option age_label :=
  if PrimFloat.leb 0 x && PrimFloat.ltb x 60 then Some Adult
  else if PrimFloat.leb 60 x && PrimFloat.ltb x 75 then Some Senior
  else if PrimFloat.leb 75 x && PrimFloat.leb x 120 then Some Elderly
  else None.

(** Ranges closed on the right, [(0,60]], [(60,75]], [(75,120]]. *)
Definition right_closed_bucket (x : float) : option age_label :=
  if PrimFloat.ltb 0 x && PrimFloat.leb x 60 then Some Adult
  else if PrimFloat.ltb 60 x && PrimFloat.leb x 75 then Some Senior
  else if PrimFloat.ltb 75 x && PrimFloat.leb x 120 then Some Elderly
  else None.

(** Lines of the log that report a problem. *)
Definition is_alert (line : string) : bool :=
  String.prefix "[WARNING]" line || String.prefix "[ERROR]" line.

(** ** A plain implementation of the scikit-learn interface

    Used to run the pipeline on examples: the generator is its seed, the
    split is a rotation by the seed (of the positions taken in order and
    moved round by the seed, the last [ceil(test_size * n)] test and the
    others train), the scaler centres and scales each column by its mean and
    its population standard deviation. *)
Module Plain.

Definition rotated_split (g : Z) (test_size : float) (n : nat) (stratify : option (list cell))
    : result (list nat * list nat) :=
  let n_test := F64.ceil_nat (PrimFloat.mul test_size (F64.of_nat n)) in
  let n_train := n - n_test in
  let turn (i : nat) : nat := (Z.to_nat (g `mod` Z.of_nat n) + i) `mod` n in
  if bool_decide (n_train = 0) then
    Raise (Exn ValueError "the resulting train set will be empty")
  else Ok (turn <$> seq 0 n_train, turn <$> seq n_train n_test).

Definition sum (l : list float) : float := foldl PrimFloat.add 0%float l.

Definition mean (l : list float) : float := PrimFloat.div (sum l) (F64.of_nat (length l)).

Fixpoint transpose (ncols : nat) (a : list (list float)) : list (list float) :=
  match ncols with
  | 0 => []
  | S k => map (fun r => hd F64.nan r) a :: transpose k (map (@tl float) a)
  end.

(** Per column: the mean and the scale. *)
Definition column_stats (a : list (list float)) : result (list (float * float)) :=
  Ok ((fun col =>
         let m := mean col in
         let var := mean (map (fun x => PrimFloat.mul (PrimFloat.sub x m) (PrimFloat.sub x m)) col) in
         let sd := PrimFloat.sqrt var in
         (m, if PrimFloat.eqb sd 0 then 1%float else sd))
        <$> transpose (length (hd [] a)) a).

Definition standardize (sc : list (float * float)) (a : list (list float))
    : result (list (list float)) :=
  Ok (map (fun r => zip_with (fun x ms => PrimFloat.div (PrimFloat.sub x (fst ms)) (snd ms)) r sc) a).

Definition sklearn : Sklearn :=
  {| RandomState := Z; seeded := id; split_indices := rotated_split;
     StandardScaler := list (float * float); fit := column_stats; transform := standardize |}.

(** A small dataset: seven records with the columns of the clinical file
    the script reads by name. *)
Definition records : list (list cell) :=
  [ [Num 75; Num 1.9; Num 4; Num 1];
    [Num 55; Num 1.1; Num 6; Num 1];
    [Num 65; Num 1.3; Num 7; Num 0];
    [Num 50; Num 1.2; Num 7; Num 0];
    [Num 60; Num 9.4; Num 8; Num 1];
    [Num 61; Num 1.0; Num 8; Num 0];
    [Num 90; Num 0.9; Num 10; Num 1] ]%float.

Definition header : list string := ["age"; "serum_creatinine"; "time"; "DEATH_EVENT"].

Definition raw : DataFrame := frame_of header records.

(** Three records whose ages are the edges 0, 60 and 75. *)
Definition edge_ages : DataFrame :=
  frame_of ["age"] [ [Num 0]; [Num 60]; [Num 75] ]%float.

(** Four records, one of which has no creatinine measurement. *)
Definition with_gap : DataFrame :=
  frame_of ["serum_creatinine"; "DEATH_EVENT"]
    [ [Num 1.0; Num 0]; [Num F64.nan; Num 1]; [Num 1.2; Num 0]; [Num 1.1; Num 1] ]%float.

(** Five records of features, and their target column. *)
Definition features : DataFrame :=
  frame_of ["age"; "serum_creatinine"]
    [ [Num 50; Num 1.0]; [Num 61; Num 1.1]; [Num 65; Num 1.2];
      [Num 90; Num 1.3]; [Num 75; Num 0.9] ]%float.

Definition outcomes : Series :=
  mkSeries "DEATH_EVENT" [0; 1; 2; 3; 4]%Z [Num 0; Num 1; Num 0; Num 1; Num 0]%float.

(** Two records, neither with a creatinine measurement. *)
Definition unmeasured : DataFrame :=
  frame_of ["serum_creatinine"] [ [Num F64.nan]; [Num F64.nan] ].

(** A dataset that has no age column. *)
Definition ageless : DataFrame :=
  frame_of ["serum_creatinine"; "time"; "DEATH_EVENT"]
    [ [Num 1.1; Num 6; Num 1]; [Num 1.3; Num 7; Num 0] ]%float.

(** A world with nothing on disk and an unreachable network. *)
Definition offline : World :=
  mkWorld ∅ (fun _ => Raise (Exn URLError "<urlopen error>")) (fun _ => None) [] 0.

(** The same, after an earlier run printed a line, and with another ambient
    generator. *)
Definition elsewhere : World :=
  mkWorld ∅ (fetch offline) (write_fault offline) ["--- SELESAI ---"] 7.

(** A world with the dataset on disk. *)
Definition cached : World := set_files {[ filename := Csv header records ]} offline.

(** A world where the network serves the dataset and the working directory
    is read-only. *)
Definition read_only : World :=
  mkWorld ∅ (fun _ => Ok raw) (fun _ => Some (Exn OSError "Read-only file system")) [] 0.

(** A world where the network serves the dataset and everything can be
    written. *)
Definition online : World := mkWorld ∅ (fun _ => Ok raw) (fun _ => None) [] 0.

(** A world with the ageless dataset on disk. *)
Definition ageless_cached : World :=
  set_files {[ filename := Csv (columns ageless) (cells <$> rows ageless) ]} offline.

(** A world with the dataset and a file of someone else's on disk. *)
Definition crowded : World :=
  set_files (<["notes.txt" := Unreadable (Exn ParserError "Error tokenizing data")]>
               {[ filename := Csv header records ]}) offline.

(** A world with a damaged local file and a working network. *)
Definition damaged : World :=
  mkWorld {[ filename := Unreadable (Exn ParserError "Error tokenizing data") ]}
    (fun _ => Ok raw) (fun _ => None) [] 0.

(** A world where the training file can be written and the testing file
    cannot. *)
Definition half_writable : World :=
  mkWorld ∅ (fetch offline)
    (fun p => if bool_decide (p = "data_test.csv") then Some (Exn OSError "No space left on device")
              else None) [] 0.

End Plain.

(** ** Notions the properties are stated with *)

(** The value of a record at column position [p] is a number within the
    two bounds, both included. *)
Definition value_within (p : nat) (bounds : float * float) (r : Row) : bool :=
  match pd.cell_at p r with
  | Num x => within (fst bounds) (snd bounds) x
  | _ => false
  end.

(** Two worlds with the same working directory and the same write faults;
    they may differ in what was printed, in the network and in the ambient
    generator. *)
Definition agree (w1 w2 : World) : Prop :=
  files w1 = files w2 /\ write_fault w1 = write_fault w2.

(** A computation whose value and whose effect on the working directory
    are the same in any two such worlds. *)
Definition reproducible {A} (m : M A) : Prop :=
  forall w1 w2, agree w1 w2 ->
    fst (m w1) = fst (m w2) /\ agree (snd (m w1)) (snd (m w2)).

(** A computation that leaves every file outside [paths] as it found it. *)
Definition touches_only {A} (paths : list string) (m : M A) : Prop :=
  forall w p, p ∉ paths -> files (snd (m w)) !! p = files w !! p.

(** The columns the transformer takes away, and those it adds. *)
Definition removed_columns : list string := ["time"; "age_category"; "DEATH_EVENT"].
Definition indicator_columns : list string := ["age_Adult"; "age_Senior"; "age_Elderly"].

(** * Properties *)

(** ** Facts on IEEE comparisons *)

Module F64Facts.
Import F64.

Section Comparison.

Implicit Types a b c : spec_float.

Lemma SFcompare_nan_r a : SFcompare a S754_nan = None.
Proof. by destruct a. Qed.

Lemma SFcompare_antisym a b :
  SFcompare b a = CompOpp <$> SFcompare a b.
Proof.
  destruct a as [sa|sa| |sa ma ea], b as [sb|sb| |sb mb eb]; simpl;
    try done; try (by destruct sa); try (by destruct sb);
    try (by destruct sa, sb).
  destruct sa, sb; simpl; f_equal; try done.
  - rewrite (Z.compare_antisym ea eb).
    destruct (ea ?= eb)%Z; simpl; try done.
    change (Pos.compare_cont Eq ?p ?q) with (p ?= q)%positive.
    by rewrite (Pos.compare_antisym ma mb).
  - rewrite (Z.compare_antisym ea eb).
    destruct (ea ?= eb)%Z; simpl; try done.
    change (Pos.compare_cont Eq ?p ?q) with (p ?= q)%positive.
    by rewrite (Pos.compare_antisym ma mb).
Qed.

Lemma lex_Lt e1 m1 e2 m2 :
  lex e1 m1 e2 m2 = Lt <-> (e1 < e2)%Z \/ (e1 = e2 /\ (m1 < m2)%positive).
Proof.
  unfold lex. change (Pos.compare_cont Eq m1 m2) with (m1 ?= m2)%positive.
  destruct (Z.compare_spec e1 e2) as [->|H|H].
  - rewrite Pos.compare_lt_iff. split; [auto|]. intros [?|[_ ?]]; [lia|done].
  - split; [auto|done].
  - split; [done|]. intros [?|[? _]]; lia.
Qed.

Lemma lex_Gt e1 m1 e2 m2 :
  lex e1 m1 e2 m2 = Gt <-> (e2 < e1)%Z \/ (e1 = e2 /\ (m2 < m1)%positive).
Proof.
  unfold lex. change (Pos.compare_cont Eq m1 m2) with (m1 ?= m2)%positive.
  destruct (Z.compare_spec e1 e2) as [->|H|H].
  - rewrite Pos.compare_gt_iff. split; [auto|]. intros [?|[_ ?]]; [lia|done].
  - split; [done|]. intros [?|[? _]]; lia.
  - split; [auto|done].
Qed.

Lemma lex_Lt_trans e1 m1 e2 m2 e3 m3 :
  lex e1 m1 e2 m2 = Lt -> lex e2 m2 e3 m3 = Lt -> lex e1 m1 e3 m3 = Lt.
Proof. rewrite !lex_Lt. lia. Qed.

Lemma lex_Gt_trans e1 m1 e2 m2 e3 m3 :
  lex e1 m1 e2 m2 = Gt -> lex e2 m2 e3 m3 = Gt -> lex e1 m1 e3 m3 = Gt.
Proof. rewrite !lex_Gt. lia. Qed.

Lemma lex_opp e1 m1 e2 m2 :
  match (e1 ?= e2)%Z with
  | Lt => Gt
  | Gt => Lt
  | Eq => CompOpp (Pos.compare_cont Eq m1 m2)
  end = CompOpp (lex e1 m1 e2 m2).
Proof. unfold lex. by destruct (e1 ?= e2)%Z. Qed.

Lemma SFltb_trans a b c :
  SFltb a b = true -> SFltb b c = true -> SFltb a c = true.
Proof.
  unfold SFltb.
  destruct a as [sa|sa| |sa ma ea], b as [sb|sb| |sb mb eb],
    c as [sc|sc| |sc mc ec]; simpl; try done;
    try (by destruct sa); try (by destruct sb); try (by destruct sc);
    try (by destruct sa, sb); try (by destruct sb, sc);
    try (by destruct sa, sc); try (by destruct sa, sb, sc).
  destruct sa, sb, sc; simpl; try done.
  - rewrite !lex_opp.
    destruct (lex ea ma eb mb) eqn:H1; simpl; try done.
    destruct (lex eb mb ec mc) eqn:H2; simpl; try done.
    by rewrite (lex_Gt_trans _ _ _ _ _ _ H1 H2).
  - fold (lex ea ma eb mb) (lex eb mb ec mc) (lex ea ma ec mc).
    destruct (lex ea ma eb mb) eqn:H1; simpl; try done.
    destruct (lex eb mb ec mc) eqn:H2; simpl; try done.
    by rewrite (lex_Lt_trans _ _ _ _ _ _ H1 H2).
Qed.

Lemma SFleb_negb_ltb a b :
  a <> S754_nan -> b <> S754_nan -> SFleb a b = negb (SFltb b a).
Proof.
  intros Ha Hb. unfold SFleb, SFltb. rewrite (SFcompare_antisym a b).
  destruct a as [sa|sa| |sa ma ea], b as [sb|sb| |sb mb eb]; try done;
    destruct (SFcompare _ _) as [[]|] eqn:E; simpl in *; try done.
  all: try (by destruct sa); try (by destruct sb); try (by destruct sa, sb).
Qed.

End Comparison.

Lemma isnan_spec x : isnan x = true <-> Prim2SF x = S754_nan.
Proof.
  unfold isnan, PrimFloat.is_nan. rewrite negb_true_iff, FloatAxioms.eqb_spec.
  unfold SFeqb. destruct (Prim2SF x) as [s|s| |s m e]; simpl.
  - split; done.
  - destruct s; split; done.
  - split; done.
  - destruct s; rewrite Z.compare_refl, Pos.compare_cont_refl; split; done.
Qed.

Lemma isnan_false_spec x : isnan x = false <-> Prim2SF x <> S754_nan.
Proof. rewrite <-isnan_spec. by destruct (isnan x). Qed.

(** A NaN compares false with everything, on either side. *)
Lemma leb_nan_r x y : isnan y = true -> PrimFloat.leb x y = false.
Proof.
  rewrite isnan_spec, FloatAxioms.leb_spec. intros ->.
  unfold SFleb. by rewrite SFcompare_nan_r.
Qed.

Lemma leb_nan_l x y : isnan x = true -> PrimFloat.leb x y = false.
Proof. rewrite isnan_spec, FloatAxioms.leb_spec. by intros ->. Qed.

Lemma ltb_nan_r x y : isnan y = true -> PrimFloat.ltb x y = false.
Proof.
  rewrite isnan_spec, FloatAxioms.ltb_spec. intros ->.
  unfold SFltb. by rewrite SFcompare_nan_r.
Qed.

Lemma ltb_trans x y z :
  PrimFloat.ltb x y = true -> PrimFloat.ltb y z = true -> PrimFloat.ltb x z = true.
Proof. rewrite !FloatAxioms.ltb_spec. apply SFltb_trans. Qed.

Lemma leb_negb_ltb x y :
  isnan x = false -> isnan y = false ->
  PrimFloat.leb x y = negb (PrimFloat.ltb y x).
Proof.
  rewrite !isnan_false_spec, FloatAxioms.leb_spec, FloatAxioms.ltb_spec.
  apply SFleb_negb_ltb.
Qed.

End F64Facts.

(** ** Age bucketing *)

Section Bucketing.

Import F64 F64Facts.

Lemma binsearch_left_step fuel arr key lo hi :
  pd.binsearch_left (S fuel) arr key lo hi =
    if bool_decide (lo < hi) then
      if npy_lt (nth (lo + (hi - lo) / 2) arr nan) key
      then pd.binsearch_left fuel arr key (S (lo + (hi - lo) / 2)) hi
      else pd.binsearch_left fuel arr key lo (lo + (hi - lo) / 2)
    else lo.
Proof. reflexivity. Qed.

Lemma npy_lt_number a x : isnan x = false -> npy_lt a x = PrimFloat.ltb a x.
Proof. unfold npy_lt. intros ->. by rewrite orb_false_r. Qed.

(** The position the search finds among the four edges. *)
Lemma searchsorted_bins x :
  isnan x = false ->
  pd.searchsorted_left bins x =
    if PrimFloat.ltb 75 x then (if PrimFloat.ltb 120 x then 4 else 3)
    else if PrimFloat.ltb 60 x then 2
    else if PrimFloat.ltb 0 x then 1 else 0.
Proof.
  intros Hx. unfold pd.searchsorted_left, bins. simpl length.
  rewrite binsearch_left_step. simpl.
  by rewrite !npy_lt_number.
Qed.

Lemma cut1_nan x : isnan x = true -> pd.cut1 bins labels x = None.
Proof. unfold pd.cut1. by intros ->. Qed.

Lemma right_closed_nan x : isnan x = true -> right_closed_bucket x = None.
Proof.
  intros Hx. unfold right_closed_bucket.
  by rewrite !(ltb_nan_r _ x Hx).
Qed.

Lemma edge_number (c : float) : isnan c = false -> forall x,
  isnan x = false -> PrimFloat.leb x c = negb (PrimFloat.ltb c x).
Proof. intros Hc x Hx. by apply leb_negb_ltb. Qed.

Lemma cut1_right_closed x : pd.cut1 bins labels x = right_closed_bucket x.
Proof.
  destruct (isnan x) eqn:Hx.
  { by rewrite cut1_nan, right_closed_nan. }
  unfold pd.cut1, right_closed_bucket. rewrite Hx, searchsorted_bins by done.
  rewrite (edge_number 60 eq_refl x Hx), (edge_number 75 eq_refl x Hx),
    (edge_number 120 eq_refl x Hx).
  pose proof (ltb_trans 0 60 x eq_refl) as H060.
  pose proof (ltb_trans 60 75 x eq_refl) as H6075.
  pose proof (ltb_trans 75 120 x eq_refl) as H75120.
  destruct (PrimFloat.ltb 0 x) eqn:H0, (PrimFloat.ltb 60 x) eqn:H60,
    (PrimFloat.ltb 75 x) eqn:H75, (PrimFloat.ltb 120 x) eqn:H120;
    simpl; try done;
    try (specialize (H060 eq_refl)); try (specialize (H6075 eq_refl));
    try (specialize (H75120 eq_refl)); congruence.
Qed.

End Bucketing.

(** ** Facts on results and frames *)

Section Frames.

Lemma bind_Ok {A B} (r : result A) (f : A -> result B) b :
  r ≫= f = Ok b -> exists a, r = Ok a /\ f a = Ok b.
Proof. destruct r as [a|e]; [by exists a | done]. Qed.

Lemma mapR_Forall2 {A B} (f : A -> result B) l l' :
  mapR f l = Ok l' -> Forall2 (fun a b => f a = Ok b) l l'.
Proof.
  revert l'. induction l as [|a l IH]; intros l' Hl; simpl in Hl.
  - injection Hl as <-. constructor.
  - apply bind_Ok in Hl as (b & Hb & Hl).
    apply bind_Ok in Hl as (bs & Hbs & Hl). injection Hl as <-.
    constructor; auto.
Qed.

Lemma mapR_length {A B} (f : A -> result B) l l' :
  mapR f l = Ok l' -> length l' = length l.
Proof. intros Hl. symmetry. eapply Forall2_length, mapR_Forall2, Hl. Qed.

(** The numbers of a numeric column are its cells. *)
Lemma to_numeric_cells s xs : pd.to_numeric s = Ok xs -> svalues s = Num <$> xs.
Proof.
  unfold pd.to_numeric. intros Hxs. apply mapR_Forall2 in Hxs.
  induction Hxs as [|c x cs xs Hc _ IH]; [done|].
  simpl. rewrite IH. by destruct c; simplify_eq.
Qed.

Lemma index_of_Some c cols p : pd.index_of c cols = Some p -> cols !! p = Some c.
Proof.
  revert p. induction cols as [|c' cols IH]; intros p; simpl; [done|].
  case_decide as Hc; [by intros [= <-]; subst|].
  destruct (pd.index_of c cols); simpl; [|done]. intros [= <-]. by apply IH.
Qed.

Lemma index_of_None c cols : pd.index_of c cols = None <-> c ∉ cols.
Proof.
  induction cols as [|c' cols IH]; simpl.
  - split; [intros _; apply not_elem_of_nil | done].
  - rewrite not_elem_of_cons. case_decide as Hc.
    + split; [done | intros [? _]; congruence].
    + destruct (pd.index_of c cols); simpl.
      * split; [done|]. intros [_ Hn]. by apply IH in Hn.
      * split; [|done]. intros _. split; [congruence | by apply IH].
Qed.

Lemma index_of_app_fresh c cols :
  pd.index_of c cols = None -> pd.index_of c (cols ++ [c]) = Some (length cols).
Proof.
  induction cols as [|c' cols IH]; simpl.
  - intros _. by rewrite decide_True.
  - case_decide; [done|]. destruct (pd.index_of c cols); [done|].
    intros _. by rewrite IH.
Qed.

Lemma nth_set_cell p x cs d : nth p (pd.set_cell p x cs) d = x.
Proof.
  revert cs. induction p as [|p IH]; intros [|y cs]; simpl; auto.
Qed.

Lemma setitem_rows p (rs : list Row) (vs : list cell) :
  length vs = length rs ->
  let rs' := zip_with (fun r v => mkRow (label r) (pd.set_cell p v (cells r))) rs vs in
  label <$> rs' = label <$> rs /\ pd.cell_at p <$> rs' = vs.
Proof.
  revert vs. induction rs as [|r rs IH]; intros [|v vs] Hlen; simpl in *; try done.
  destruct (IH vs) as [IH1 IH2]; [lia|]. split; f_equal; try done.
  unfold pd.cell_at. simpl. apply nth_set_cell.
Qed.

(** Reading back the column an assignment wrote. *)
Lemma getitem_setitem df c vs :
  length vs = length (rows df) ->
  pd.getitem (pd.setitem df c vs) c = Ok (mkSeries c (label <$> rows df) vs).
Proof.
  intros Hlen. unfold pd.getitem, pd.setitem. simpl.
  set (p := default (length (columns df)) (pd.index_of c (columns df))).
  assert (pd.index_of c
            (if pd.index_of c (columns df) is Some _ then columns df
             else columns df ++ [c]) = Some p) as ->.
  { subst p. destruct (pd.index_of c (columns df)) eqn:E; simpl; [done|].
    by apply index_of_app_fresh. }
  destruct (setitem_rows p (rows df) vs Hlen) as [-> ->]. done.
Qed.

Lemma getitem_length df c s :
  pd.getitem df c = Ok s -> length (svalues s) = length (rows df).
Proof.
  unfold pd.getitem. destruct (pd.index_of c (columns df)); [|done].
  intros [= <-]. simpl. by rewrite length_fmap.
Qed.

(** What step 2 computes: every record gets the bin of its age. *)
Lemma bin_age_lookup df df' age cat i x :
  bin_age df = Ok df' ->
  pd.getitem df "age" = Ok age ->
  pd.getitem df' "age_category" = Ok cat ->
  svalues age !! i = Some (Num x) ->
  svalues cat !! i = Some (Cat (pd.cut1 bins labels x)).
Proof.
  unfold bin_age. intros Hbin Hage Hcat Hi.
  rewrite Hage in Hbin. simpl in Hbin.
  apply bind_Ok in Hbin as (cats & Hcats & [= <-]).
  unfold pd.cut in Hcats. apply bind_Ok in Hcats as (xs & Hxs & [= <-]).
  rewrite getitem_setitem in Hcat.
  - injection Hcat as <-. simpl.
    rewrite (to_numeric_cells _ _ Hxs), list_lookup_fmap in Hi.
    change (map ?f xs) with (f <$> xs). rewrite list_lookup_fmap.
    destruct (xs !! i) as [x'|]; simpl in *; [|done]. by injection Hi as ->.
  - rewrite length_map, (mapR_length _ _ _ Hxs). by eapply getitem_length.
Qed.

End Frames.

(** ** Outlier filter *)

Section Outliers.

Import F64 F64Facts.

(** Selecting with a mask computed from a numeric column is filtering the
    records on that column. *)
Lemma boolean_index_filter p (f : float -> bool) (rs : list Row) (xs : list float) :
  pd.cell_at p <$> rs = Num <$> xs ->
  pd.boolean_index rs (map f xs) =
    filter (fun r => match pd.cell_at p r with Num x => f x | _ => false end = true) rs.
Proof.
  revert xs. induction rs as [|r rs IH]; intros [|x xs] Hxs; simpl in *; try done.
  injection Hxs as Hr Hxs. rewrite (IH xs Hxs).
  destruct (f x) eqn:Hf.
  - rewrite filter_cons_True; [done|]. by rewrite Hr.
  - rewrite filter_cons_False; [done|]. rewrite Hr, Hf. done.
Qed.

Lemma reset_index_labels (rs : list Row) :
  label <$> imap (fun i r => mkRow (Z.of_nat i) (cells r)) rs
    = Z.of_nat <$> seq 0 (length rs).
Proof.
  apply list_eq. intros i.
  rewrite !list_lookup_fmap, list_lookup_imap.
  destruct (rs !! i) as [r|] eqn:Hi; simpl.
  - apply lookup_lt_Some in Hi. by rewrite lookup_seq_lt.
  - apply lookup_ge_None in Hi. rewrite (lookup_ge_None_2 (seq 0 (length rs))); [done|].
    by rewrite length_seq.
Qed.

Lemma reset_index_cells (rs : list Row) :
  cells <$> imap (fun i r => mkRow (Z.of_nat i) (cells r)) rs = cells <$> rs.
Proof.
  apply list_eq. intros i.
  rewrite !list_lookup_fmap, list_lookup_imap. by destruct (rs !! i).
Qed.

(** What a successful call of the filter did. *)
Lemma handle_outliers_inv df c w df' w' :
  handle_outliers df c w = (Ok df', w') ->
  exists p xs,
    pd.index_of c (columns df) = Some p /\
    pd.cell_at p <$> rows df = Num <$> xs /\
    df' = pd.reset_index
            (mkDF (columns df)
               (filter (fun r => value_within p (iqr_bounds xs) r = true) (rows df))).
Proof.
  unfold handle_outliers, mbind, M_bind, lift, pd.getitem.
  destruct (pd.index_of c (columns df)) as [p|] eqn:Hp; [|done].
  destruct (pd.to_numeric _) as [xs|] eqn:Hxs; [|done].
  apply to_numeric_cells in Hxs. simpl in Hxs.
  destruct (iqr_bounds xs) as [lo hi] eqn:Hb. simpl.
  unfold mret, M_ret. intros [= <- _]. exists p, xs. split_and!; [done..|].
  by rewrite Hb, (boolean_index_filter p _ _ _ Hxs).
Qed.

Lemma to_numeric_numbers name index xs :
  pd.to_numeric (mkSeries name index (Num <$> xs)) = Ok xs.
Proof.
  unfold pd.to_numeric. cbn [svalues].
  induction xs as [|x xs IH]; [done|].
  rewrite fmap_cons. cbn [mapR]. by rewrite IH.
Qed.

(** The filter returns on every frame where the column is there and holds
    numbers (NaN included). *)
Lemma handle_outliers_returns df c w p xs :
  pd.index_of c (columns df) = Some p ->
  pd.cell_at p <$> rows df = Num <$> xs ->
  exists df' w', handle_outliers df c w = (Ok df', w').
Proof.
  intros Hp Hxs. unfold handle_outliers, mbind, M_bind, lift, pd.getitem.
  rewrite Hp, Hxs, to_numeric_numbers.
  destruct (iqr_bounds xs) as [lo hi]. simpl. eauto.
Qed.

Lemma value_within_inv p lo hi r :
  value_within p (lo, hi) r = true ->
  exists x, pd.cell_at p r = Num x /\
    PrimFloat.leb lo x = true /\ PrimFloat.leb x hi = true.
Proof.
  unfold value_within, within. simpl.
  destruct (pd.cell_at p r) as [x| |]; try done.
  intros [??]%andb_true_iff. eauto.
Qed.

(** A record of the output is a record of the input that passed the test,
    under a new label. *)
Lemma reset_index_elem (P : Row -> Prop) `{!forall r, Decision (P r)} cols rs r :
  r ∈ rows (pd.reset_index (mkDF cols (filter P rs))) ->
  exists r0, r0 ∈ rs /\ P r0 /\ cells r = cells r0.
Proof.
  simpl. intros (i & Hi)%list_elem_of_lookup_1.
  rewrite list_lookup_imap in Hi.
  destruct (filter P rs !! i) as [r0|] eqn:Hr0; simpl in Hi; [|done].
  injection Hi as <-. apply list_elem_of_lookup_2, list_elem_of_filter in Hr0 as [??].
  by exists r0.
Qed.

Lemma within_not_nan lo hi x : within lo hi x = true -> isnan x = false.
Proof.
  unfold within. destruct (isnan x) eqn:Hx; [|done].
  by rewrite (leb_nan_r lo x Hx).
Qed.

End Outliers.

(** ** Loader *)

Section Loader.

Lemma is_url_filename : is_url filename = false.
Proof. reflexivity. Qed.

Lemma is_url_url : is_url url = true.
Proof. reflexivity. Qed.

Lemma set_stdout_twice out1 out2 w :
  set_stdout out2 (set_stdout out1 w) = set_stdout out2 w.
Proof. reflexivity. Qed.

(** The local file is there: it is read, and a failure to read it gives
    [None]. *)
Lemma load_data_cached w f :
  files w !! filename = Some f ->
  load_data w =
    match f with
    | Csv h rs =>
        (Ok (Some (frame_of h rs)),
         set_stdout (stdout w ++ ["[INFO] Dataset lokal ditemukan: " +:+ filename;
                                  "[INFO] Ukuran awal: " +:+ shape_str (frame_of h rs)]) w)
    | Unreadable e => (Ok None, set_stdout (stdout w ++ [err_read e]) w)
    end.
Proof.
  intros Hf.
  unfold load_data, mbind, M_bind, os.path_exists, try_except, read_csv, print, mret, M_ret.
  rewrite Hf, is_url_filename. simpl. rewrite Hf.
  destruct f as [h rs|e]; simpl; [|done].
  unfold set_stdout. simpl. by rewrite <-app_assoc.
Qed.

(** The local file is not there: the dataset is fetched and cached, and a
    failure of either gives [None]. *)
Lemma load_data_missing w :
  files w !! filename = None ->
  load_data w =
    match fetch w url with
    | Raise e => (Ok None, set_stdout (stdout w ++ [warn_missing; err_download e]) w)
    | Ok df =>
        match write_fault w filename with
        | Some e => (Ok None, set_stdout (stdout w ++ [warn_missing; err_download e]) w)
        | None =>
            (Ok (Some df),
             set_stdout
               (stdout w ++ [warn_missing;
                             "[INFO] Berhasil download dan simpan ke '" +:+ filename +:+ "'"])
               (set_files (<[filename := Csv (columns df) (cells <$> rows df)]> (files w)) w))
        end
    end.
Proof.
  intros Hf.
  unfold load_data, mbind, M_bind, os.path_exists, try_except, read_csv, to_csv, print,
    mret, M_ret.
  rewrite Hf, is_url_url. simpl.
  destruct (fetch w url) as [df|e]; simpl.
  - destruct (write_fault w filename) as [e|]; simpl.
    + unfold set_stdout. simpl. by rewrite <-app_assoc.
    + unfold set_stdout, set_files. simpl. by rewrite <-app_assoc.
  - unfold set_stdout. simpl. by rewrite <-app_assoc.
Qed.

End Loader.

(** The dataset on disk is what the loader returns. *)
Example load_data_from_cache : fst (load_data Plain.cached) = Ok (Some Plain.raw).
Proof. vm_compute. reflexivity. Qed.

(** ** Entry point *)

Section Main.

Context `{Sklearn}.

(** After a [None] from the loader only the closing line is printed. *)
Lemma main_after_failed_load w w1 :
  load_data (set_stdout (stdout w ++ ["--- MULAI PROSES OTOMATISASI ---"]) w) = (Ok None, w1) ->
  main w = (Ok (), set_stdout (stdout w1 ++ ["--- SELESAI ---"]) w1).
Proof.
  intros Hload. unfold main, mbind, M_bind, print at 1. by rewrite Hload.
Qed.

End Main.

(** ** Columns through the feature transformer *)

Section Columns.

Lemma has_column_false df c : pd.has_column df c = false <-> c ∉ columns df.
Proof. unfold pd.has_column. by rewrite bool_decide_eq_false. Qed.

Lemma drop_columns df c df' :
  pd.drop df c = Ok df' -> columns df' = filter (fun c' => c' <> c) (columns df).
Proof. unfold pd.drop. destruct (pd.has_column df c); [|done]. by intros [= <-]. Qed.


Lemma bin_age_columns df df' c :
  bin_age df = Ok df' -> c ∈ columns df' -> c ∈ columns df \/ c = "age_category".
Proof.
  unfold bin_age. intros (age & _ & (cats & _ & [= <-])%bind_Ok)%bind_Ok.
  simpl. destruct (pd.index_of _ _); [auto|].
  rewrite elem_of_app, list_elem_of_singleton. tauto.
Qed.

Lemma get_dummies_columns df df' c :
  pd.get_dummies df "age_category" "age" = Ok df' -> c ∈ columns df' ->
  c ∈ columns df \/ c ∈ ["age_Adult"; "age_Senior"; "age_Elderly"].
Proof.
  unfold pd.get_dummies. destruct (pd.index_of _ _); [|done]. intros [= <-].
  simpl. rewrite elem_of_app, list_elem_of_filter. tauto.
Qed.

Lemma handle_outliers_columns df c w df' w' :
  handle_outliers df c w = (Ok df', w') -> columns df' = columns df.
Proof. by intros (p & xs & _ & _ & ->)%handle_outliers_inv. Qed.

(** The steps of a successful call of [preprocess_data]. *)
Lemma preprocess_data_inv df w X y w' :
  preprocess_data df w = (Ok (X, y), w') ->
  exists df1 df2 df3 df4,
    drop_time df = Ok df1 /\ bin_age df1 = Ok df2 /\
    pd.get_dummies df2 "age_category" "age" = Ok df3 /\
    handle_outliers df3 "serum_creatinine" w = (Ok df4, w') /\
    pd.drop df4 "DEATH_EVENT" = Ok X /\ pd.getitem df4 "DEATH_EVENT" = Ok y.
Proof.
  unfold preprocess_data, mbind, M_bind, lift, mret, M_ret.
  destruct (drop_time df) as [df1|] eqn:H1; [|done].
  destruct (bin_age df1) as [df2|] eqn:H2; [|done].
  destruct (pd.get_dummies df2 _ _) as [df3|] eqn:H3; [|done].
  destruct (handle_outliers df3 _ w) as [[df4|] w4] eqn:H4; [|done].
  destruct (pd.drop df4 _) as [X'|] eqn:H5; [|done].
  destruct (pd.getitem df4 _) as [y'|] eqn:H6; [|done].
  intros [= <- <- <-]. by exists df1, df2, df3, df4.
Qed.

Lemma getitem_name df c s : pd.getitem df c = Ok s -> sname s = c.
Proof.
  unfold pd.getitem. destruct (pd.index_of _ _); [|done]. by intros [= <-].
Qed.

End Columns.

(** ** Split and scale *)

Section Reproducible.

Context `{Sklearn}.

Lemma reproducible_ret {A} (a : A) : reproducible (mret a).
Proof. by intros w1 w2 Hw. Qed.





(** With an integer seed the generator, and so the split, ignores the world. *)
Lemma train_test_split_seeded X y test_size seed stratify w :
  train_test_split X y test_size (Some seed) stratify w =
    (if bool_decide (length (rows X) = length (svalues y)) then
       '(train, test) ← split_indices (seeded seed) test_size (length (rows X))
                          (svalues <$> stratify);
       X_train ← iloc X train; X_test ← iloc X test;
       y_train ← iloc_series y train; y_test ← iloc_series y test;
       Ok (X_train, X_test, y_train, y_test)
     else Raise (Exn ValueError "Found input variables with inconsistent numbers of samples"),
     w).
Proof.
  unfold train_test_split. case_bool_decide; [|done].
  unfold mbind at 1, M_bind, check_random_state, lift.
  destruct (split_indices _ _ _ _) as [[train test]|]; [|done]. simpl.
  unfold mbind, M_bind, result_bind, mret, M_ret.
  destruct (iloc X train); [|done]. destruct (iloc X test); [|done].
  destruct (iloc_series y train); [|done]. by destruct (iloc_series y test).
Qed.

Lemma take_length {A} (l : list A) positions l' :
  take l positions = Ok l' -> length l' = length positions.
Proof. apply mapR_length. Qed.

Lemma iloc_length df positions df' :
  iloc df positions = Ok df' -> length (rows df') = length positions.
Proof.
  unfold iloc. intros (rs & Hrs & [= <-])%bind_Ok. by eapply take_length.
Qed.

Lemma iloc_series_length s positions s' :
  iloc_series s positions = Ok s' -> length (svalues s') = length positions.
Proof.
  unfold iloc_series.
  intros (ls & _ & (vs & Hvs & [= <-])%bind_Ok)%bind_Ok. by eapply take_length.
Qed.



(** The scaler that transforms the testing records is the one fitted on the
    training records. *)
Lemma scale_fit_on_training X_train X_test a b :
  scale X_train X_test = Ok (a, b) ->
  exists a_train a_test scaler,
    to_array X_train = Ok a_train /\ fit a_train = Ok scaler /\
    transform scaler a_train = Ok a /\
    to_array X_test = Ok a_test /\ transform scaler a_test = Ok b.
Proof.
  unfold scale.
  intros (a_train & ? & (sc & ? & (a' & ? & (a_test & ? & (b' & ? & [= <- <-])
    %bind_Ok)%bind_Ok)%bind_Ok)%bind_Ok)%bind_Ok.
  by exists a_train, a_test, sc.
Qed.

End Reproducible.


(** * The stated properties *)

(** ** Feature transformer: age buckets *)

(** C1, as the code has it. The bucketing step assigns each age to a
    category by ranges closed on the right: (0,60] is Adult, (60,75] is
    Senior, (75,120] is Elderly, and anything else (0 and below, above 120,
    a missing age) is left unset: for every record of every dataset the step
    accepts, the category written is the right-closed bucket of its age. In
    particular an age of exactly 0 is unset, 60 is Adult, 75 is Senior and
    120 is Elderly. *)
Theorem age_buckets_right_closed df df' age cat i x :
  bin_age df = Ok df' ->
  pd.getitem df "age" = Ok age ->
  pd.getitem df' "age_category" = Ok cat ->
  svalues age !! i = Some (Num x) ->
  svalues cat !! i = Some (Cat (right_closed_bucket x)) /\
  right_closed_bucket 0 = None /\
  right_closed_bucket 60 = Some Adult /\
  right_closed_bucket 75 = Some Senior /\
  right_closed_bucket 120 = Some Elderly.
Proof.
  intros Hbin Hage Hcat Hi. split_and!; try reflexivity.
  rewrite <-cut1_right_closed. eapply bin_age_lookup; eauto.
Qed.

Lemma age_buckets_right_closed_witness :
  exists df' age cat,
    bin_age Plain.edge_ages = Ok df' /\
    pd.getitem Plain.edge_ages "age" = Ok age /\
    pd.getitem df' "age_category" = Ok cat /\
    svalues age !! 1 = Some (Num 60) /\
    svalues cat !! 1 = Some (Cat (right_closed_bucket 60)).
Proof.
  eexists _, _, _. split_and!.
  5: { eapply (age_buckets_right_closed Plain.edge_ages _ _ _ 1 60%float);
       [vm_compute; reflexivity..]. }
  all: vm_compute; reflexivity.
Defined.

(** C1, as the specification words it, fails at each of the three edges:
    on the records with ages 0, 60 and 75 the step writes unset, Adult and
    Senior, where left-closed ranges ask for Adult, Senior and Elderly. *)
Lemma age_edges_not_left_closed :
  exists df' cat,
    bin_age Plain.edge_ages = Ok df' /\
    pd.getitem df' "age_category" = Ok cat /\
    svalues cat = [Cat None; Cat (Some Adult); Cat (Some Senior)] /\
    svalues cat !! 0 <> Some (Cat (left_closed_bucket 0)) /\
    svalues cat !! 1 <> Some (Cat (left_closed_bucket 60)) /\
    svalues cat !! 2 <> Some (Cat (left_closed_bucket 75)).
Proof.
  eexists _, _. split_and!.
  1-3: vm_compute; reflexivity.
  all: vm_compute; discriminate.
Qed.



(** ** Outlier filter *)

(** C3. For every dataset and column [c] the filter accepts, with [Q1], [Q3]
    and [IQR = Q3 - Q1] computed from column [c] of the dataset given:
    every record kept has its value in [c] within the bounds
    [Q1 - 1.5 * IQR] and [Q3 + 1.5 * IQR], both included; the records kept
    are exactly the records of the input within the bounds, in their order
    (the others are removed); and the result is a frame with the same columns
    whose records are labelled anew by their positions 0, 1, 2, ... *)
Theorem handle_outliers_keeps_within_bounds df c w df' w' :
  handle_outliers df c w = (Ok df', w') ->
  exists p xs,
    pd.index_of c (columns df) = Some p /\
    pd.cell_at p <$> rows df = Num <$> xs /\
    let Q1 := pd.quantile xs 0.25 in
    let Q3 := pd.quantile xs 0.75 in
    let IQR := PrimFloat.sub Q3 Q1 in
    let lower := PrimFloat.sub Q1 (PrimFloat.mul 1.5 IQR) in
    let upper := PrimFloat.add Q3 (PrimFloat.mul 1.5 IQR) in
    (forall r, r ∈ rows df' ->
       exists x, pd.cell_at p r = Num x /\
         PrimFloat.leb lower x = true /\ PrimFloat.leb x upper = true) /\
    cells <$> rows df' =
      cells <$> filter (fun r => value_within p (lower, upper) r = true) (rows df) /\
    label <$> rows df' = Z.of_nat <$> seq 0 (length (rows df')) /\
    columns df' = columns df.
Proof.
  intros (p & xs & Hp & Hxs & ->)%handle_outliers_inv.
  exists p, xs. do 2 (split; [done|]).
  unfold iqr_bounds. cbv zeta. split_and!; try done.
  - intros r (r0 & _ & Hr0 & Hcells)%reset_index_elem.
    apply value_within_inv in Hr0 as (x & Hx & Hlo & Hhi).
    exists x. unfold pd.cell_at in *. by rewrite Hcells.
  - apply reset_index_cells.
  - simpl. by rewrite reset_index_labels, length_imap.
Qed.

Lemma handle_outliers_keeps_within_bounds_witness :
  exists df' w',
    handle_outliers Plain.raw "serum_creatinine" Plain.offline = (Ok df', w') /\
    length (rows df') = 6 /\
    label <$> rows df' = Z.of_nat <$> seq 0 (length (rows df')).
Proof.
  eexists _, _. split; [vm_compute; reflexivity|].
  split; [vm_compute; reflexivity|].
  destruct (handle_outliers_keeps_within_bounds Plain.raw "serum_creatinine" Plain.offline _ _
              ltac:(vm_compute; reflexivity)) as (p & xs & _ & _ & _ & _ & Hlabels & _).
  exact Hlabels.
Defined.

(** C9. The filter removes every record whose value in the filtered column
    is missing: in the output of any successful call every record has a
    number in that column that is not NaN, and no record of the input with a
    NaN there is among the records kept. *)
Theorem handle_outliers_drops_missing df c w df' w' :
  handle_outliers df c w = (Ok df', w') ->
  exists p,
    pd.index_of c (columns df) = Some p /\
    pd.index_of c (columns df') = Some p /\
    (forall r, r ∈ rows df' ->
       exists x, pd.cell_at p r = Num x /\ F64.isnan x = false) /\
    (forall r x, r ∈ rows df -> pd.cell_at p r = Num x -> F64.isnan x = true ->
       cells r ∉ cells <$> rows df').
Proof.
  intros (p & xs & Hp & Hxs & ->)%handle_outliers_inv.
  assert (forall r, r ∈ rows (pd.reset_index (mkDF (columns df)
             (filter (fun r => value_within p (iqr_bounds xs) r = true) (rows df)))) ->
           exists x, pd.cell_at p r = Num x /\ F64.isnan x = false) as Hkept.
  { intros r (r0 & _ & Hr0 & Hcells)%reset_index_elem.
    unfold value_within in Hr0. unfold pd.cell_at in *. rewrite Hcells.
    destruct (nth p (cells r0) _) as [x| |]; try done.
    exists x. split; [done|]. by eapply within_not_nan. }
  exists p. split_and!; try done.
  intros r x Hr Hx Hnan (r' & Hcells & Hr')%list_elem_of_fmap_1.
  destruct (Hkept r' Hr') as (x' & Hx' & Hnan').
  unfold pd.cell_at in *. rewrite <-Hcells, Hx in Hx'. congruence.
Qed.

Lemma handle_outliers_drops_missing_witness :
  exists df' w',
    handle_outliers Plain.with_gap "serum_creatinine" Plain.offline = (Ok df', w') /\
    length (rows Plain.with_gap) = 4 /\ length (rows df') = 3 /\
    forall r, r ∈ rows df' -> exists x, pd.cell_at 0 r = Num x /\ F64.isnan x = false.
Proof.
  eexists _, _. split; [vm_compute; reflexivity|].
  split; [reflexivity|]. split; [vm_compute; reflexivity|].
  destruct (handle_outliers_drops_missing Plain.with_gap "serum_creatinine" Plain.offline _ _
              ltac:(vm_compute; reflexivity)) as (p & Hp & _ & Hkept & _).
  injection Hp as <-. exact Hkept.
Defined.

(** ** Loader *)

(** C4. In every world (local file there or not, reading, parsing, fetching
    and caching succeeding or failing) the loader ends normally, with the
    dataset or with [None]; it never raises. What the local file or the
    network gave is returned, and every failure on the way is turned into
    [None]. *)
Theorem load_data_never_raises w :
  exists r w',
    load_data w = (Ok r, w') /\
    match files w !! filename with
    | Some (Csv h rs) => r = Some (frame_of h rs)
    | Some (Unreadable _) => r = None
    | None =>
        match fetch w url, write_fault w filename with
        | Ok df, None => r = Some df
        | _, _ => r = None
        end
    end.
Proof.
  destruct (files w !! filename) as [f|] eqn:Hf.
  - rewrite (load_data_cached w f Hf). destruct f; eauto.
  - rewrite (load_data_missing w Hf).
    destruct (fetch w url); [destruct (write_fault w filename)|]; eauto.
Qed.

(** C10. When the local file is absent, the fetch succeeds and writing the
    local copy fails, the loader returns [None]: the dataset fetched is
    dropped, the failure is reported as a failed download, and the pipeline
    stops there, writing nothing. *)
Theorem cache_write_failure_masks_fetch `{Sklearn} w df e :
  files w !! filename = None ->
  fetch w url = Ok df ->
  write_fault w filename = Some e ->
  load_data w = (Ok None, set_stdout (stdout w ++ [warn_missing; err_download e]) w) /\
  exists w',
    main w = (Ok (), w') /\
    files w' = files w /\
    stdout w' = stdout w ++ ["--- MULAI PROSES OTOMATISASI ---"; warn_missing;
                             err_download e; "--- SELESAI ---"].
Proof.
  intros Hf Hfetch Hwrite. split.
  - by rewrite (load_data_missing w Hf), Hfetch, Hwrite.
  - eexists. split.
    + apply main_after_failed_load.
      rewrite load_data_missing by done. simpl. by rewrite Hfetch, Hwrite.
    + split; [done|]. simpl. by rewrite <-!app_assoc.
Qed.

Lemma cache_write_failure_masks_fetch_witness :
  fst (load_data Plain.read_only) = Ok None /\
  files (snd (@main Plain.sklearn Plain.read_only)) = ∅.
Proof.
  destruct (@cache_write_failure_masks_fetch Plain.sklearn Plain.read_only Plain.raw
              (Exn OSError "Read-only file system") eq_refl eq_refl eq_refl)
    as (Hload & w' & Hmain & Hfiles & _).
  split.
  - by rewrite Hload.
  - by rewrite Hmain.
Defined.

(** ** Entry point *)

(** C6. When the local file is absent and the fetch fails, the loader
    returns [None] and the pipeline runs no further stage: it ends normally,
    having printed, between its opening and closing lines, exactly two
    lines that report a problem (the warning and the error), and the working
    directory is as it was, so neither [data_train.csv] nor [data_test.csv]
    is written. *)
Theorem main_halts_when_nothing_loads `{Sklearn} w e :
  files w !! filename = None ->
  fetch w url = Raise e ->
  exists w' printed,
    fst (load_data w) = Ok None /\
    main w = (Ok (), w') /\
    stdout w' = stdout w ++ printed /\
    printed = ["--- MULAI PROSES OTOMATISASI ---"; warn_missing;
               err_download e; "--- SELESAI ---"] /\
    length (filter (fun line => is_alert line = true) printed) = 2 /\
    files w' = files w /\
    files w' !! "data_train.csv" = files w !! "data_train.csv" /\
    files w' !! "data_test.csv" = files w !! "data_test.csv".
Proof.
  intros Hf Hfetch. eexists _, _. split_and!.
  - by rewrite (load_data_missing w Hf), Hfetch.
  - apply main_after_failed_load.
    rewrite load_data_missing by done. simpl. by rewrite Hfetch.
  - simpl. rewrite <-!app_assoc. simpl. reflexivity.
  - reflexivity.
  - reflexivity.
  - reflexivity.
  - reflexivity.
  - reflexivity.
Qed.

Lemma main_halts_when_nothing_loads_witness :
  fst (@main Plain.sklearn Plain.offline) = Ok () /\
  files (snd (@main Plain.sklearn Plain.offline)) !! "data_train.csv" = None /\
  files (snd (@main Plain.sklearn Plain.offline)) !! "data_test.csv" = None.
Proof.
  destruct (@main_halts_when_nothing_loads Plain.sklearn Plain.offline
              (Exn URLError "<urlopen error>") eq_refl eq_refl)
    as (w' & printed & _ & Hmain & _ & _ & _ & _ & Htrain & Htest).
  rewrite Hmain. simpl. by rewrite Htrain, Htest.
Defined.

(** ** Feature transformer: the time column *)



(** ** Split and scale *)



(** Without a seed the split follows the ambient generator: the seed is
    what makes the runs agree. *)
Lemma unseeded_split_follows_the_world :
  exists X y w1 w2,
    agree w1 w2 /\
    fst (@train_test_split Plain.sklearn X y 0.2%float None (Some y) w1)
      <> fst (@train_test_split Plain.sklearn X y 0.2%float None (Some y) w2).
Proof.
  exists Plain.features, Plain.outcomes, Plain.offline, Plain.elsewhere.
  split; [done|]. vm_compute. discriminate.
Qed.

(** * Further properties of the script *)

(** ** Feature transformer: what it needs and what it returns *)

Section Transformer.

Lemma filter_ne_id (c : string) (l : list string) :
  c ∉ l -> filter (fun c' => c' <> c) l = l.
Proof.
  induction l as [|c' l IH]; [done|]. intros [Hne Hl]%not_elem_of_cons.
  rewrite filter_cons_True by done. by rewrite IH.
Qed.

Lemma filter_ne_snoc (c : string) (l : list string) :
  filter (fun c' => c' <> c) (l ++ [c]) = filter (fun c' => c' <> c) l.
Proof.
  rewrite filter_app, filter_cons_False, filter_nil, app_nil_r; [done|].
  by intros Hc.
Qed.

(** The first step always returns, with the columns other than [time]. *)
Lemma drop_time_returns df :
  exists df1, drop_time df = Ok df1 /\
    columns df1 = filter (fun c => c <> "time") (columns df) /\
    length (rows df1) = length (rows df).
Proof.
  unfold drop_time, pd.drop. destruct (pd.has_column df "time") eqn:Ht.
  - eexists. split_and!; [done..|]. simpl. by rewrite length_fmap.
  - exists df. split_and!; [done| |done].
    symmetry. by apply filter_ne_id, has_column_false.
Qed.

Lemma getitem_elem df c s : pd.getitem df c = Ok s -> c ∈ columns df.
Proof.
  unfold pd.getitem. destruct (pd.index_of c (columns df)) as [p|] eqn:Hp; [|done].
  intros _. eapply list_elem_of_lookup_2, index_of_Some, Hp.
Qed.

Lemma getitem_missing df c :
  c ∉ columns df -> pd.getitem df c = Raise (Exn KeyError (pd.quote c)).
Proof. intros Hc%index_of_None. unfold pd.getitem. by rewrite Hc. Qed.

Lemma bin_age_inv df df' :
  bin_age df = Ok df' ->
  exists age xs,
    pd.getitem df "age" = Ok age /\ pd.to_numeric age = Ok xs /\
    df' = pd.setitem df "age_category"
            (map (fun x => Cat (pd.cut1 bins labels x)) xs).
Proof.
  unfold bin_age. intros (age & Hage & (cats & Hcats & [= <-])%bind_Ok)%bind_Ok.
  unfold pd.cut in Hcats. apply bind_Ok in Hcats as (xs & Hxs & [= <-]).
  by exists age, xs.
Qed.

Lemma bin_age_columns_eq df df' :
  bin_age df = Ok df' ->
  filter (fun c => c <> "age_category") (columns df')
    = filter (fun c => c <> "age_category") (columns df).
Proof.
  intros (age & xs & _ & _ & ->)%bin_age_inv. simpl.
  destruct (pd.index_of _ _); [done|]. apply filter_ne_snoc.
Qed.

Lemma get_dummies_columns_eq df df' :
  pd.get_dummies df "age_category" "age" = Ok df' ->
  columns df' = filter (fun c => c <> "age_category") (columns df) ++ indicator_columns.
Proof.
  unfold pd.get_dummies. destruct (pd.index_of _ _); [|done]. by intros [= <-].
Qed.

Lemma filter_removed (l : list string) :
  filter (fun c => c <> "DEATH_EVENT")
    (filter (fun c => c <> "age_category") (filter (fun c => c <> "time") l))
    = filter (fun c => c ∉ removed_columns) l.
Proof.
  induction l as [|c l IH]; [done|].
  destruct (decide (c = "time")) as [->|Ht].
  { rewrite (filter_cons_False _ "time") by (by intros ?).
    rewrite (filter_cons_False _ "time"); [done|]. intros Hn. apply Hn. set_unfold. auto. }
  rewrite (filter_cons_True _ c) by done.
  destruct (decide (c = "age_category")) as [->|Ha].
  { rewrite (filter_cons_False _ "age_category") by (by intros ?).
    rewrite (filter_cons_False _ "age_category"); [done|]. intros Hn. apply Hn.
    set_unfold. auto. }
  rewrite (filter_cons_True _ c) by done.
  destruct (decide (c = "DEATH_EVENT")) as [->|Hd].
  { rewrite (filter_cons_False _ "DEATH_EVENT") by (by intros ?).
    rewrite (filter_cons_False _ "DEATH_EVENT"); [done|]. intros Hn. apply Hn.
    set_unfold. auto. }
  rewrite (filter_cons_True _ c) by done.
  rewrite (filter_cons_True _ c); [by rewrite IH|].
  unfold removed_columns. rewrite !not_elem_of_cons.
  split_and!; [done..|apply not_elem_of_nil].
Qed.

(** Without an age column the transformer stops at the bucketing step. *)
Lemma preprocess_data_no_age df w :
  "age" ∉ columns df ->
  preprocess_data df w = (Raise (Exn KeyError "'age'"), w).
Proof.
  intros Hage. destruct (drop_time_returns df) as (df1 & Hdrop & Hcols & _).
  unfold preprocess_data, mbind at 1, M_bind, lift. rewrite Hdrop.
  unfold mbind at 1, M_bind, lift, bin_age. rewrite getitem_missing; [done|].
  rewrite Hcols, list_elem_of_filter. by intros [_ ?].
Qed.

End Transformer.

(** X1. On every dataset the transformer accepts, the features and the target it
    returns have the same number of records and the same labels, which are
    the positions 0, 1, 2, ... of the records kept. *)
Theorem preprocess_data_aligned df w X y w' :
  preprocess_data df w = (Ok (X, y), w') ->
  length (rows X) = length (svalues y) /\
  label <$> rows X = sindex y /\
  sindex y = Z.of_nat <$> seq 0 (length (rows X)).
Proof.
  intros (df1 & df2 & df3 & df4 & _ & _ & _ & H4 & H5 & H6)%preprocess_data_inv.
  apply handle_outliers_inv in H4 as (p & xs & _ & _ & Hdf4).
  assert (label <$> rows df4 = Z.of_nat <$> seq 0 (length (rows df4))) as Hlab.
  { rewrite Hdf4. simpl. by rewrite reset_index_labels, length_imap. }
  unfold pd.drop in H5. destruct (pd.has_column df4 _); [|done]. injection H5 as <-.
  unfold pd.getitem in H6. destruct (pd.index_of _ _); [|done]. injection H6 as <-.
  simpl. rewrite !length_fmap, <-list_fmap_compose. split_and!; [done|done|].
  by rewrite Hlab.
Qed.

Lemma preprocess_data_aligned_witness :
  exists X y w',
    preprocess_data Plain.raw Plain.offline = (Ok (X, y), w') /\
    length (rows X) = 6 /\ length (svalues y) = 6 /\ label <$> rows X = sindex y.
Proof.
  eexists _, _, _. split; [vm_compute; reflexivity|].
  split; [vm_compute; reflexivity|]. split; [vm_compute; reflexivity|].
  eapply (preprocess_data_aligned Plain.raw Plain.offline). vm_compute; reflexivity.
Defined.

(** X2. The transformer returns only on datasets that have the three columns it
    reads by name: [age], [serum_creatinine] and [DEATH_EVENT]. *)
Theorem preprocess_data_needs_columns df w X y w' :
  preprocess_data df w = (Ok (X, y), w') ->
  ("age" ∈ columns df) /\ ("serum_creatinine" ∈ columns df) /\
  ("DEATH_EVENT" ∈ columns df).
Proof.
  intros (df1 & df2 & df3 & df4 & H1 & H2 & H3 & H4 & H5 & H6)%preprocess_data_inv.
  destruct (drop_time_returns df) as (df1' & Hdrop & Hcols1 & _).
  rewrite H1 in Hdrop. injection Hdrop as <-.
  assert (forall c, c ∈ columns df1 -> c ∈ columns df) as Hsub.
  { intros c. rewrite Hcols1, list_elem_of_filter. tauto. }
  assert (forall c, c ∈ columns df3 -> c <> "age_category" ->
                    c ∉ indicator_columns -> c ∈ columns df) as Hsub3.
  { intros c Hc Hne Hni. apply Hsub.
    apply (get_dummies_columns _ _ _ H3) in Hc as [Hc|Hc]; [|done].
    by apply (bin_age_columns _ _ _ H2) in Hc as [Hc|Hc]. }
  split_and!.
  - apply bin_age_inv in H2 as (age & xs & Hage & _). by eapply Hsub, getitem_elem.
  - apply handle_outliers_inv in H4 as (p & xs & Hp & _).
    apply Hsub3; [|done|].
    + eapply list_elem_of_lookup_2, index_of_Some, Hp.
    + by apply (bool_decide_unpack _).
  - apply getitem_elem in H6. rewrite (handle_outliers_columns _ _ _ _ _ H4) in H6.
    apply Hsub3; [done|done|]. by apply (bool_decide_unpack _).
Qed.

Lemma preprocess_data_needs_columns_witness :
  exists X y w',
    preprocess_data Plain.raw Plain.offline = (Ok (X, y), w') /\
    ("age" ∈ columns Plain.raw).
Proof.
  eexists _, _, _. split; [vm_compute; reflexivity|].
  eapply (preprocess_data_needs_columns Plain.raw Plain.offline). vm_compute; reflexivity.
Defined.

(** X3. A dataset without an [age] column makes the transformer raise
    [KeyError('age')] at the bucketing step, before anything is printed: the
    world is left as it was. *)
Theorem preprocess_data_without_age df w :
  "age" ∉ columns df ->
  preprocess_data df w = (Raise (Exn KeyError "'age'"), w).
Proof. apply preprocess_data_no_age. Qed.

Lemma preprocess_data_without_age_witness :
  preprocess_data Plain.ageless Plain.offline = (Raise (Exn KeyError "'age'"), Plain.offline).
Proof.
  apply preprocess_data_without_age. by apply (bool_decide_unpack _).
Defined.

(** X4. The columns of the features returned are the columns of the input
    other than [time], [age_category] and [DEATH_EVENT], in their order,
    followed by the three indicators [age_Adult], [age_Senior],
    [age_Elderly]. *)
Theorem preprocess_data_schema df w X y w' :
  preprocess_data df w = (Ok (X, y), w') ->
  columns X = filter (fun c => c ∉ removed_columns) (columns df) ++ indicator_columns /\
  sname y = "DEATH_EVENT".
Proof.
  intros (df1 & df2 & df3 & df4 & H1 & H2 & H3 & H4 & H5 & H6)%preprocess_data_inv.
  destruct (drop_time_returns df) as (df1' & Hdrop & Hcols1 & _).
  rewrite H1 in Hdrop. injection Hdrop as <-.
  split; [|by eapply getitem_name].
  rewrite (drop_columns _ _ _ H5), (handle_outliers_columns _ _ _ _ _ H4),
    (get_dummies_columns_eq _ _ H3), (bin_age_columns_eq _ _ H2), Hcols1.
  rewrite filter_app, filter_removed. f_equal.
Qed.

Lemma preprocess_data_schema_witness :
  exists X y w',
    preprocess_data Plain.raw Plain.offline = (Ok (X, y), w') /\
    columns X = ["age"; "serum_creatinine"; "age_Adult"; "age_Senior"; "age_Elderly"].
Proof.
  eexists _, _, _. split; [vm_compute; reflexivity|].
  destruct (preprocess_data_schema Plain.raw Plain.offline _ _ _
              ltac:(vm_compute; reflexivity)) as [-> _].
  vm_compute. reflexivity.
Defined.

(** ** Feature transformer: the indicators *)

Section Indicators.

Import F64 F64Facts.

Lemma leb_ltb_false x c :
  PrimFloat.leb x c = true -> PrimFloat.ltb c x = true -> False.
Proof.
  intros Hle Hlt. destruct (isnan x) eqn:Hx.
  { by rewrite (leb_nan_l x c Hx) in Hle. }
  destruct (isnan c) eqn:Hc.
  { by rewrite (leb_nan_r x c Hc) in Hle. }
  rewrite (leb_negb_ltb x c Hx Hc), Hlt in Hle. done.
Qed.

(** The indicators of a bucket are the memberships of the age in the three
    ranges: they exclude each other. *)
Lemma indicators_of_bucket x :
  pd.indicators (Cat (right_closed_bucket x)) =
    [Flag (PrimFloat.ltb 0 x && PrimFloat.leb x 60);
     Flag (PrimFloat.ltb 60 x && PrimFloat.leb x 75);
     Flag (PrimFloat.ltb 75 x && PrimFloat.leb x 120)].
Proof.
  unfold right_closed_bucket.
  pose proof (leb_ltb_false x 60) as H60.
  pose proof (leb_ltb_false x 75) as H75.
  pose proof (ltb_trans 60 75 x eq_refl) as H6075.
  destruct (PrimFloat.ltb 0 x), (PrimFloat.leb x 60), (PrimFloat.ltb 60 x),
    (PrimFloat.leb x 75), (PrimFloat.ltb 75 x), (PrimFloat.leb x 120);
    simpl; try reflexivity;
    try (by destruct (H60 eq_refl eq_refl));
    try (by destruct (H75 eq_refl eq_refl));
    try (by specialize (H6075 eq_refl)).
Qed.

Lemma getitem_cells df c s p :
  pd.getitem df c = Ok s -> pd.index_of c (columns df) = Some p ->
  svalues s = pd.cell_at p <$> rows df.
Proof. unfold pd.getitem. intros Hs Hp. rewrite Hp in Hs. by injection Hs as <-. Qed.

End Indicators.

(** X5. After bucketing and encoding, every record ends with three indicators
    that say whether its age is in (0,60], in (60,75], in (75,120]; the
    three exclude each other, and none is set for an age outside (0,120] or
    missing. The frame's columns end with [age_Adult], [age_Senior],
    [age_Elderly]. *)
Theorem age_indicators df df2 df3 age i x r :
  bin_age df = Ok df2 ->
  pd.get_dummies df2 "age_category" "age" = Ok df3 ->
  pd.getitem df "age" = Ok age ->
  svalues age !! i = Some (Num x) ->
  rows df3 !! i = Some r ->
  (exists rest,
     cells r = rest ++ [Flag (PrimFloat.ltb 0 x && PrimFloat.leb x 60);
                        Flag (PrimFloat.ltb 60 x && PrimFloat.leb x 75);
                        Flag (PrimFloat.ltb 75 x && PrimFloat.leb x 120)]) /\
  (exists others, columns df3 = others ++ indicator_columns).
Proof.
  intros Hbin Hdum Hage Hi Hr. split.
  - destruct (pd.getitem df2 "age_category") as [cat|e] eqn:Hcat.
    2:{ unfold pd.get_dummies, pd.getitem in *.
        by destruct (pd.index_of "age_category" (columns df2)). }
    pose proof (bin_age_lookup _ _ _ _ _ _ Hbin Hage Hcat Hi) as Hci.
    unfold pd.get_dummies in Hdum.
    destruct (pd.index_of "age_category" (columns df2)) as [p|] eqn:Hp; [|done].
    injection Hdum as <-. simpl in Hr.
    rewrite (getitem_cells _ _ _ _ Hcat Hp), list_lookup_fmap in Hci.
    rewrite list_lookup_fmap in Hr.
    destruct (rows df2 !! i) as [r2|]; simpl in *; [|done].
    injection Hr as <-. injection Hci as Hci. simpl. rewrite Hci.
    rewrite cut1_right_closed, indicators_of_bucket. eauto.
  - rewrite (get_dummies_columns_eq _ _ Hdum). eauto.
Qed.

Lemma age_indicators_witness :
  exists df2 df3 age r,
    bin_age Plain.raw = Ok df2 /\
    pd.get_dummies df2 "age_category" "age" = Ok df3 /\
    pd.getitem Plain.raw "age" = Ok age /\
    svalues age !! 4 = Some (Num 60) /\
    rows df3 !! 4 = Some r /\
    exists rest, cells r = rest ++ [Flag true; Flag false; Flag false].
Proof.
  eexists _, _, _, _. split_and!.
  6: { eapply (age_indicators Plain.raw _ _ _ 4 60%float); [vm_compute; reflexivity..]. }
  all: vm_compute; reflexivity.
Defined.

(** ** Outlier filter: edges and errors *)

Section Filter.

Import F64 F64Facts.

Lemma boolean_index_length (rs : list Row) mask :
  length (pd.boolean_index rs mask) <= length rs.
Proof.
  revert mask. induction rs as [|r rs IH]; intros [|[] mask]; simpl; try lia.
  - specialize (IH mask). lia.
  - specialize (IH mask). lia.
Qed.

(** The world after a successful call: one more line, nothing else. *)
Lemma handle_outliers_world df c w df' w' :
  handle_outliers df c w = (Ok df', w') ->
  length (rows df') <= length (rows df) /\
  w' = set_stdout
         (stdout w ++ ["[INFO] Outlier handling '" +:+ c +:+ "': Dibuang "
                         +:+ pretty (length (rows df) - length (rows df')) +:+ " baris."]) w.
Proof.
  unfold handle_outliers, mbind, M_bind, lift, pd.getitem.
  destruct (pd.index_of c (columns df)) as [p|]; [|done].
  destruct (pd.to_numeric _) as [xs|]; [|done].
  destruct (iqr_bounds xs) as [lo hi]. simpl.
  unfold mret, M_ret. intros [= <- <-]. simpl. rewrite length_imap.
  split; [apply boolean_index_length | done].
Qed.

Lemma handle_outliers_no_column df c w :
  c ∉ columns df -> handle_outliers df c w = (Raise (Exn KeyError (pd.quote c)), w).
Proof.
  intros Hc. unfold handle_outliers, mbind, M_bind, lift.
  by rewrite (getitem_missing _ _ Hc).
Qed.

Lemma numbers_of_cells (f : Row -> cell) (P : float -> Prop) (rs : list Row) :
  (forall r, r ∈ rs -> exists x, f r = Num x /\ P x) ->
  exists xs, f <$> rs = Num <$> xs /\ Forall P xs.
Proof.
  induction rs as [|r rs IH]; intros Hrs.
  - by exists [].
  - destruct (Hrs r) as (x & Hx & HP); [by left|].
    destruct IH as (xs & Hxs & HPs); [intros r' Hr'; apply Hrs; by right|].
    exists (x :: xs). split; [|by constructor]. by rewrite !fmap_cons, Hx, Hxs.
Qed.

Lemma quantile_all_missing xs q :
  Forall (fun x => isnan x = true) xs -> pd.quantile xs q = nan.
Proof.
  intros Hxs. unfold pd.quantile.
  assert (filter (fun x => isnan x = false) xs = []) as ->; [|done].
  induction Hxs as [|x xs Hx _ IH]; [done|].
  rewrite filter_cons_False; [done|]. by rewrite Hx.
Qed.

Lemma boolean_index_none (rs : list Row) (xs : list float) (f : float -> bool) :
  Forall (fun x => f x = false) xs -> pd.boolean_index rs (map f xs) = [].
Proof.
  intros Hxs. revert rs. induction Hxs as [|x xs Hx _ IH]; intros [|r rs]; simpl; try done.
  by rewrite Hx.
Qed.

End Filter.

(** X6. A successful call of the filter prints one line, which reports the
    number of records removed (records given minus records returned), and
    changes nothing else: no file is touched and the number of records
    never grows. *)
Theorem handle_outliers_reports_removed df c w df' w' :
  handle_outliers df c w = (Ok df', w') ->
  length (rows df') <= length (rows df) /\
  stdout w' = stdout w ++ ["[INFO] Outlier handling '" +:+ c +:+ "': Dibuang "
                             +:+ pretty (length (rows df) - length (rows df')) +:+ " baris."] /\
  files w' = files w.
Proof.
  intros [Hlen ->]%handle_outliers_world. by split_and!.
Qed.

Lemma handle_outliers_reports_removed_witness :
  exists df' w',
    handle_outliers Plain.raw "serum_creatinine" Plain.offline = (Ok df', w') /\
    stdout w' = ["[INFO] Outlier handling 'serum_creatinine': Dibuang 1 baris."].
Proof.
  eexists _, _. split; [vm_compute; reflexivity|].
  destruct (handle_outliers_reports_removed Plain.raw "serum_creatinine" Plain.offline _ _
              ltac:(vm_compute; reflexivity)) as (_ & -> & _).
  vm_compute. reflexivity.
Defined.

(** X7. When every value of the column is missing (an empty dataset included)
    the filter does not fail: the quartiles are NaN, no record passes the
    test, and the result is the frame with the same columns and no record. *)
Theorem handle_outliers_all_missing df c w p :
  pd.index_of c (columns df) = Some p ->
  (forall r, r ∈ rows df -> exists x, pd.cell_at p r = Num x /\ F64.isnan x = true) ->
  exists w', handle_outliers df c w = (Ok (mkDF (columns df) []), w').
Proof.
  intros Hp Hall.
  destruct (numbers_of_cells (pd.cell_at p) _ _ Hall) as (xs & Hxs & Hnan).
  unfold handle_outliers, mbind, M_bind, lift, pd.getitem.
  rewrite Hp, Hxs, to_numeric_numbers.
  unfold iqr_bounds. rewrite !(quantile_all_missing _ _ Hnan).
  rewrite boolean_index_none.
  - simpl. eauto.
  - eapply Forall_impl; [exact Hnan|]. intros x Hx. unfold within.
    by rewrite (F64Facts.leb_nan_r _ x Hx).
Qed.

Lemma handle_outliers_all_missing_witness :
  exists w',
    handle_outliers Plain.unmeasured "serum_creatinine" Plain.offline
    = (Ok (mkDF (columns Plain.unmeasured) []), w').
Proof.
  apply (handle_outliers_all_missing Plain.unmeasured "serum_creatinine" Plain.offline 0).
  - reflexivity.
  - intros r Hr. exists F64.nan. split; [|reflexivity].
    simpl in Hr. apply elem_of_cons in Hr as [->|Hr]; [done|].
    apply elem_of_cons in Hr as [->|Hr]; [done|]. by apply elem_of_nil in Hr.
Defined.

(** X8. The filter returns exactly on the frames where the column is there and
    holds numbers; when the column is not there it raises [KeyError] with
    the column's name and prints nothing. *)
Theorem handle_outliers_returns_iff df c w :
  ((exists df' w', handle_outliers df c w = (Ok df', w')) <->
   (exists p xs, pd.index_of c (columns df) = Some p /\
                 pd.cell_at p <$> rows df = Num <$> xs)) /\
  ((c ∉ columns df) ->
   handle_outliers df c w = (Raise (Exn KeyError ("'" +:+ c +:+ "'")), w)).
Proof.
  split; [split|].
  - intros (df' & w' & (p & xs & Hp & Hxs & _)%handle_outliers_inv). eauto.
  - intros (p & xs & Hp & Hxs). by eapply handle_outliers_returns.
  - apply handle_outliers_no_column.
Qed.

Lemma handle_outliers_returns_iff_witness :
  handle_outliers Plain.edge_ages "serum_creatinine" Plain.offline
    = (Raise (Exn KeyError "'serum_creatinine'"), Plain.offline).
Proof.
  apply (handle_outliers_returns_iff Plain.edge_ages "serum_creatinine" Plain.offline).
  by apply (bool_decide_unpack _).
Defined.

(** ** Loader: the cache *)

Section Cache.

Lemma load_data_returns w : exists r w1, load_data w = (Ok r, w1).
Proof.
  destruct (files w !! filename) as [f|] eqn:Hf.
  - rewrite (load_data_cached w f Hf). destruct f; eauto.
  - rewrite (load_data_missing w Hf).
    destruct (fetch w url); [destruct (write_fault w filename)|]; eauto.
Qed.

(** A failed load leaves the working directory as it was. *)
Lemma load_data_None_files w w1 : load_data w = (Ok None, w1) -> files w1 = files w.
Proof.
  destruct (files w !! filename) as [f|] eqn:Hf.
  - rewrite (load_data_cached w f Hf). destruct f; [done|]. by intros [= <-].
  - rewrite (load_data_missing w Hf).
    destruct (fetch w url); [destruct (write_fault w filename)|]; [|done|];
      by intros [= <-].
Qed.

End Cache.

(** X9. After a load that had to fetch the dataset and could cache it, the
    local copy is there: a later load, in any world with that working
    directory and whatever the network does by then, returns a dataset with
    the same columns and the same number of records, prints the two lines of
    a local read and no warning, and writes nothing. *)
Theorem load_data_caches w df :
  files w !! filename = None ->
  fetch w url = Ok df ->
  write_fault w filename = None ->
  exists w1,
    load_data w = (Ok (Some df), w1) /\
    forall w2, files w2 = files w1 ->
      exists df2 w3,
        load_data w2 = (Ok (Some df2), w3) /\
        columns df2 = columns df /\
        length (rows df2) = length (rows df) /\
        stdout w3 = stdout w2 ++ ["[INFO] Dataset lokal ditemukan: " +:+ filename;
                                  "[INFO] Ukuran awal: " +:+ shape_str df2] /\
        files w3 = files w2.
Proof.
  intros Hf Hfetch Hwrite. eexists. split.
  { by rewrite (load_data_missing w Hf), Hfetch, Hwrite. }
  intros w2 Hw2. eexists _, _. split.
  { rewrite (load_data_cached w2 (Csv (columns df) (cells <$> rows df))); [done|].
    rewrite Hw2. simpl. apply lookup_insert_eq. }
  split_and!; try done. simpl. by rewrite length_imap, length_fmap.
Qed.

Lemma load_data_caches_witness :
  exists w1,
    load_data Plain.online = (Ok (Some Plain.raw), w1) /\
    exists df2 w3,
      load_data (mkWorld (files w1) (fetch Plain.offline) (write_fault Plain.offline) [] 3)
        = (Ok (Some df2), w3) /\
      columns df2 = columns Plain.raw.
Proof.
  destruct (load_data_caches Plain.online Plain.raw eq_refl eq_refl eq_refl)
    as (w1 & Hload & Hagain).
  exists w1. split; [exact Hload|].
  destruct (Hagain (mkWorld (files w1) (fetch Plain.offline) (write_fault Plain.offline) [] 3)
              eq_refl) as (df2 & w3 & Hload2 & Hcols & _).
  by exists df2, w3.
Defined.

(** X10. A local file that is there but cannot be read is not replaced by a
    download: the loader returns [None] after one error line, whatever the
    network would have served, and leaves the working directory as it was. *)
Theorem load_data_no_fallback_when_unreadable w e :
  files w !! filename = Some (Unreadable e) ->
  exists w',
    load_data w = (Ok None, w') /\
    stdout w' = stdout w ++ ["[ERROR] Gagal membaca file: " +:+ msg e] /\
    files w' = files w.
Proof.
  intros Hf. eexists. split; [by rewrite (load_data_cached w _ Hf)|]. done.
Qed.

Lemma load_data_no_fallback_when_unreadable_witness :
  fetch Plain.damaged url = Ok Plain.raw /\
  fst (load_data Plain.damaged) = Ok None.
Proof.
  split; [reflexivity|].
  destruct (load_data_no_fallback_when_unreadable Plain.damaged
              (Exn ParserError "Error tokenizing data") eq_refl) as (w' & -> & _).
  reflexivity.
Defined.

(** ** Persister and entry point: what reaches the working directory *)

Section Directory.

Context `{Sklearn}.

Lemma touches_ret {A} paths (a : A) : touches_only paths (mret a).
Proof. by intros w p _. Qed.

Lemma touches_lift {A} paths (r : result A) : touches_only paths (lift r).
Proof. by intros w p _. Qed.

Lemma touches_print paths line : touches_only paths (print line).
Proof. by intros w p _. Qed.

Lemma touches_bind {A B} paths (m : M A) (k : A -> M B) :
  touches_only paths m -> (forall a, touches_only paths (k a)) ->
  touches_only paths (m ≫= k).
Proof.
  intros Hm Hk w p Hp. specialize (Hm w p Hp). unfold mbind, M_bind.
  destruct (m w) as [[a|e] w1]; simpl in *; [|done].
  by rewrite (Hk a w1 p Hp).
Qed.

Lemma touches_try {A} paths (body : M A) (handler : exn -> M A) :
  touches_only paths body -> (forall e, touches_only paths (handler e)) ->
  touches_only paths (try_except body handler).
Proof.
  intros Hb Hh w p Hp. specialize (Hb w p Hp). unfold try_except.
  destruct (body w) as [[a|e] w1]; simpl in *; [done|].
  by rewrite (Hh e w1 p Hp).
Qed.

Lemma touches_read_csv paths src : touches_only paths (read_csv src).
Proof.
  intros w p _. unfold read_csv. destruct (is_url src); [done|].
  by destruct (files w !! src) as [[]|].
Qed.

Lemma touches_to_csv paths df path : path ∈ paths -> touches_only paths (to_csv df path).
Proof.
  intros Hin w p Hp. unfold to_csv. destruct (write_fault w path); [done|].
  simpl. apply lookup_insert_ne. by intros ->.
Qed.

Lemma touches_load_data paths : filename ∈ paths -> touches_only paths load_data.
Proof.
  intros Hin. unfold load_data. apply touches_bind; [by intros w p _|]. intros [].
  - apply touches_try; [|intros e; apply touches_bind; [apply touches_print|];
                         intros; apply touches_ret].
    apply touches_bind; [apply touches_read_csv|]. intros df.
    do 2 (apply touches_bind; [apply touches_print|]; intros ?). apply touches_ret.
  - apply touches_bind; [apply touches_print|]. intros _.
    apply touches_try; [|intros e; apply touches_bind; [apply touches_print|];
                         intros; apply touches_ret].
    apply touches_bind; [apply touches_read_csv|]. intros df.
    apply touches_bind; [by apply touches_to_csv|]. intros _.
    apply touches_bind; [apply touches_print|]. intros _. apply touches_ret.
Qed.

Lemma touches_handle_outliers paths df c : touches_only paths (handle_outliers df c).
Proof.
  unfold handle_outliers.
  apply touches_bind; [apply touches_lift|]. intros s.
  apply touches_bind; [apply touches_lift|]. intros xs.
  destruct (iqr_bounds xs) as [lo hi].
  apply touches_bind; [apply touches_print|]. intros _. apply touches_ret.
Qed.

Lemma touches_preprocess_data paths df : touches_only paths (preprocess_data df).
Proof.
  unfold preprocess_data.
  do 3 (apply touches_bind; [apply touches_lift|]; intros ?).
  apply touches_bind; [apply touches_handle_outliers|]. intros ?.
  do 2 (apply touches_bind; [apply touches_lift|]; intros ?). apply touches_ret.
Qed.

Lemma touches_split paths X y : touches_only paths (split X y).
Proof.
  intros w p _. unfold split. by rewrite train_test_split_seeded.
Qed.

Lemma touches_save_prepared_data paths X y :
  "data_train.csv" ∈ paths -> "data_test.csv" ∈ paths ->
  touches_only paths (save_prepared_data X y).
Proof.
  intros Htrain Htest. unfold save_prepared_data.
  apply touches_bind; [apply touches_split|]. intros [[[X_train X_test] y_train] y_test].
  apply touches_bind; [apply touches_lift|]. intros [X_train_scaled X_test_scaled].
  do 2 (apply touches_bind; [apply touches_lift|]; intros ?).
  do 2 (apply touches_bind; [by apply touches_to_csv|]; intros ?).
  do 2 (apply touches_bind; [apply touches_print|]; intros ?). apply touches_print.
Qed.

Lemma touches_main paths :
  filename ∈ paths -> "data_train.csv" ∈ paths -> "data_test.csv" ∈ paths ->
  touches_only paths main.
Proof.
  intros Hraw Htrain Htest. unfold main.
  apply touches_bind; [apply touches_print|]. intros _.
  apply touches_bind; [by apply touches_load_data|]. intros [df|].
  - apply touches_bind; [|intros ?; apply touches_print].
    apply touches_bind; [apply touches_preprocess_data|]. intros [X y].
    by apply touches_save_prepared_data.
  - apply touches_bind; [apply touches_ret|]. intros ?. apply touches_print.
Qed.

(** How a run of the persister can end: with an exception and nothing
    written; with the exception of the second write, the training file
    written and the testing file not; or normally, with both written. An
    exception comes with nothing printed. *)
Lemma save_prepared_data_outcomes X y w :
  (exists e, save_prepared_data X y w = (Raise e, w)) \/
  (exists e c,
     write_fault w "data_train.csv" = None /\
     write_fault w "data_test.csv" = Some e /\
     save_prepared_data X y w
       = (Raise e, set_files (<["data_train.csv" := c]> (files w)) w)) \/
  (exists c1 c2 w',
     save_prepared_data X y w = (Ok (), w') /\
     files w' = <["data_test.csv" := c2]> (<["data_train.csv" := c1]> (files w))).
Proof.
  unfold save_prepared_data, mbind, M_bind, split. rewrite train_test_split_seeded.
  destruct (if bool_decide _ then _ else _) as [[[[X_train X_test] y_train] y_test]|e];
    [|left; eauto].
  unfold lift. destruct (scale X_train X_test) as [[a b]|e]; [|left; eauto].
  destruct (from_array a (columns X)) as [X_train_final|e]; [|left; eauto].
  destruct (from_array b (columns X)) as [X_test_final|e]; [|left; eauto].
  unfold to_csv, print.
  destruct (write_fault w "data_train.csv") as [e|] eqn:Htrain; [left; eauto|].
  simpl. destruct (write_fault w "data_test.csv") as [e|] eqn:Htest.
  - right; left. eauto.
  - right; right. simpl. eauto.
Qed.

Lemma preprocess_data_files df w X y w' :
  preprocess_data df w = (Ok (X, y), w') -> files w' = files w.
Proof.
  intros (df1 & df2 & df3 & df4 & _ & _ & _ & H4 & _)%preprocess_data_inv.
  by apply handle_outliers_world in H4 as [_ ->].
Qed.

End Directory.

(** X11. Whatever the libraries do and however the run ends, the entry point
    leaves every file other than [heart_failure_raw.csv], [data_train.csv]
    and [data_test.csv] as it found it. *)
Theorem main_touches_only_its_files `{Sklearn} w p :
  p ∉ [filename; "data_train.csv"; "data_test.csv"] ->
  files (snd (main w)) !! p = files w !! p.
Proof.
  apply touches_main.
  - by apply (list_elem_of_lookup_2 _ 0).
  - by apply (list_elem_of_lookup_2 _ 1).
  - by apply (list_elem_of_lookup_2 _ 2).
Qed.

Lemma main_touches_only_its_files_witness :
  fst (@main Plain.sklearn Plain.crowded) = Ok () /\
  is_Some (files (snd (@main Plain.sklearn Plain.crowded)) !! "data_train.csv") /\
  files (snd (@main Plain.sklearn Plain.crowded)) !! "notes.txt"
    = files Plain.crowded !! "notes.txt".
Proof.
  split; [vm_compute; reflexivity|]. split; [vm_compute; eauto|].
  apply (@main_touches_only_its_files Plain.sklearn Plain.crowded "notes.txt").
  by apply (bool_decide_unpack _).
Defined.

(** X12. The persister writes the training file first and the testing file
    second, each without a guard. So a run ends in one of three ways: with
    an exception, nothing written and nothing printed; with the exception of
    the second write, the training file written and the testing file not; or
    normally, with both files written. It never writes the testing file
    without the training file. *)
Theorem save_prepared_data_writes_in_order `{Sklearn} X y w :
  (exists e, save_prepared_data X y w = (Raise e, w)) \/
  (exists e c,
     write_fault w "data_train.csv" = None /\
     write_fault w "data_test.csv" = Some e /\
     save_prepared_data X y w
       = (Raise e, set_files (<["data_train.csv" := c]> (files w)) w)) \/
  (exists c1 c2 w',
     save_prepared_data X y w = (Ok (), w') /\
     files w' = <["data_test.csv" := c2]> (<["data_train.csv" := c1]> (files w))).
Proof. apply save_prepared_data_outcomes. Qed.

(** The second way does happen: a full disk between the two writes leaves
    the training file alone on disk. *)
Example training_file_left_alone :
  exists e w',
    @save_prepared_data Plain.sklearn Plain.features Plain.outcomes Plain.half_writable
      = (Raise e, w') /\
    is_Some (files w' !! "data_train.csv") /\
    files w' !! "data_test.csv" = None.
Proof.
  eexists _, _. split; [vm_compute; reflexivity|].
  split; [vm_compute; eauto | vm_compute; reflexivity].
Qed.

Section EntryPoint.

Context `{Sklearn}.

Lemma load_data_ignores_stdout out w :
  fst (load_data (set_stdout out w)) = fst (load_data w).
Proof.
  destruct (files w !! filename) as [f|] eqn:Hf.
  - rewrite (load_data_cached w f Hf), (load_data_cached (set_stdout out w) f Hf).
    by destruct f.
  - rewrite (load_data_missing w Hf), (load_data_missing (set_stdout out w) Hf). simpl.
    destruct (fetch w url); [destruct (write_fault w filename)|]; done.
Qed.

End EntryPoint.

(** X13. A run of the entry point that ends normally printed the closing line
    last, and either loaded nothing and left the working directory as it
    was, or loaded a dataset and left both [data_train.csv] and
    [data_test.csv] on disk. *)
Theorem main_ends_normally_with_nothing_or_both `{Sklearn} w w' :
  main w = (Ok (), w') ->
  (exists out, stdout w' = out ++ ["--- SELESAI ---"]) /\
  ((fst (load_data w) = Ok None /\ files w' = files w) \/
   (exists df, fst (load_data w) = Ok (Some df) /\
      is_Some (files w' !! "data_train.csv") /\
      is_Some (files w' !! "data_test.csv"))).
Proof.
  set (w0 := set_stdout (stdout w ++ ["--- MULAI PROSES OTOMATISASI ---"]) w).
  destruct (load_data_returns w0) as (r & w1 & Hload).
  assert (fst (load_data w) = Ok r) as Hr.
  { rewrite <-(load_data_ignores_stdout
                 (stdout w ++ ["--- MULAI PROSES OTOMATISASI ---"]) w).
    fold w0. by rewrite Hload. }
  unfold main, mbind, M_bind, print at 1. fold w0. rewrite Hload.
  destruct r as [df|].
  - destruct (preprocess_data df w1) as [[[X y]|e] w2] eqn:Hpre; [|done].
    destruct (save_prepared_data_outcomes X y w2)
      as [(e & ->)|[(e & c & _ & _ & ->)|(c1 & c2 & w3 & -> & Hfiles)]]; [done..|].
    unfold print. intros [= <-]. split; [by eexists|]. right. exists df.
    split; [done|]. simpl. rewrite Hfiles. split.
    + rewrite lookup_insert_ne by done. rewrite lookup_insert_eq. by eexists.
    + rewrite lookup_insert_eq. by eexists.
  - unfold mret, M_ret, print. intros [= <-]. split; [by eexists|]. left.
    split; [done|]. simpl. by rewrite (load_data_None_files _ _ Hload).
Qed.


Lemma main_ends_normally_with_nothing_or_both_witness :
  exists w',
    @main Plain.sklearn Plain.cached = (Ok (), w') /\
    exists out, stdout w' = out ++ ["--- SELESAI ---"].
Proof.
  eexists. split; [vm_compute; reflexivity|].
  eapply (@main_ends_normally_with_nothing_or_both Plain.sklearn Plain.cached).
  vm_compute; reflexivity.
Defined.

(** X14. When the dataset on disk has no [age] column the entry point does not
    end normally: the [KeyError] of the transformer reaches the caller, the
    closing line is not printed and nothing is written. *)
Theorem main_raises_without_age `{Sklearn} w h rs :
  files w !! filename = Some (Csv h rs) ->
  ("age" ∉ h) ->
  exists w',
    main w = (Raise (Exn KeyError "'age'"), w') /\
    stdout w' = stdout w ++ ["--- MULAI PROSES OTOMATISASI ---";
                             "[INFO] Dataset lokal ditemukan: " +:+ filename;
                             "[INFO] Ukuran awal: " +:+ shape_str (frame_of h rs)] /\
    files w' = files w.
Proof.
  intros Hf Hage. eexists. split.
  - unfold main, mbind at 1 2 3, M_bind, print at 1.
    rewrite (load_data_cached _ (Csv h rs)) by done.
    cbv beta iota. unfold mbind, M_bind.
    rewrite preprocess_data_no_age by done. reflexivity.
  - simpl. by rewrite <-!app_assoc.
Qed.

Lemma main_raises_without_age_witness :
  fst (@main Plain.sklearn Plain.ageless_cached) = Raise (Exn KeyError "'age'") /\
  files (snd (@main Plain.sklearn Plain.ageless_cached)) = files Plain.ageless_cached.
Proof.
  destruct (@main_raises_without_age Plain.sklearn Plain.ageless_cached
              (columns Plain.ageless) (cells <$> rows Plain.ageless) eq_refl
              ltac:(by apply (bool_decide_unpack _)))
    as (w' & -> & _ & Hfiles).
  by split.
Defined.

(** ** Persister: the target joined back *)

Section Join.

Context `{Sklearn}.

Lemma frame_of_labels (cols : list string) (recs : list (list cell)) :
  label <$> rows (frame_of cols recs) = Z.of_nat <$> seq 0 (length recs).
Proof.
  simpl. apply list_eq. intros i.
  rewrite !list_lookup_fmap, list_lookup_imap.
  destruct (recs !! i) as [r|] eqn:Hi; simpl.
  - apply lookup_lt_Some in Hi. by rewrite lookup_seq_lt.
  - apply lookup_ge_None in Hi. rewrite (lookup_ge_None_2 (seq 0 (length recs))); [done|].
    by rewrite length_seq.
Qed.

Lemma frame_of_cells (cols : list string) (recs : list (list cell)) :
  cells <$> rows (frame_of cols recs) = recs.
Proof.
  simpl. apply list_eq. intros i.
  rewrite list_lookup_fmap, list_lookup_imap. by destruct (recs !! i).
Qed.

Lemma lookup_positions (vs : list cell) j q :
  zip (Z.of_nat <$> seq 0 (length vs)) vs !! j = Some q ->
  fst q = Z.of_nat j /\ vs !! j = Some (snd q).
Proof.
  intros (l & v & -> & Hl & Hv)%lookup_zip_with_Some.
  rewrite list_lookup_fmap in Hl. apply lookup_lt_Some in Hv as Hlt.
  rewrite lookup_seq_lt in Hl by done. simpl in Hl. injection Hl as <-. done.
Qed.

Lemma find_position (vs : list cell) i v :
  vs !! i = Some v ->
  list_find (fun p : Z * cell => fst p = Z.of_nat i)
    (zip (Z.of_nat <$> seq 0 (length vs)) vs) = Some (i, (Z.of_nat i, v)).
Proof.
  intros Hv. apply list_find_Some. split_and!; [|done|].
  - rewrite lookup_zip_with, list_lookup_fmap, Hv.
    apply lookup_lt_Some in Hv. by rewrite lookup_seq_lt.
  - intros j q [Hq _]%lookup_positions Hlt. rewrite Hq. lia.
Qed.

Lemma filter_none {A} (P : A -> Prop) `{!forall x, Decision (P x)} (l : list A) :
  (forall x, x ∈ l -> ~ P x) -> filter P l = [].
Proof.
  induction l as [|x l IH]; intros Hl; [done|].
  rewrite filter_cons_False by (apply Hl; by left).
  apply IH. intros y Hy. apply Hl. by right.
Qed.

(** Joining a frame built from an array with a series of as many values,
    relabelled by position, puts the [i]-th value after the [i]-th record;
    nothing is padded and nothing is left over. *)
Lemma concat_columns_aligned cols recs s :
  length recs = length (svalues s) ->
  concat_columns (frame_of cols recs) (pd.reset_index_series s)
    = frame_of (cols ++ [sname s]) (zip_with (fun cs v => cs ++ [v]) recs (svalues s)).
Proof.
  intros Hlen. unfold concat_columns.
  rewrite frame_of_labels. simpl sname. simpl sindex. simpl svalues. simpl columns.
  unfold frame_of. f_equal.
  rewrite (filter_none _ (zip _ _)).
  2:{ intros q (j & Hq)%list_elem_of_lookup_1 Hn. apply Hn.
      apply lookup_positions in Hq as [-> Hv%lookup_lt_Some].
      apply list_elem_of_fmap_2, elem_of_seq. lia. }
  rewrite fmap_nil, app_nil_r. simpl rows.
  rewrite fmap_imap. apply list_eq. intros i.
  rewrite !list_lookup_imap, lookup_zip_with.
  destruct (recs !! i) as [cs|] eqn:Hcs; simpl; [|done].
  destruct (svalues s !! i) as [v|] eqn:Hv; simpl.
  - by rewrite (find_position _ _ _ Hv).
  - apply lookup_lt_Some in Hcs. apply lookup_ge_None in Hv. lia.
Qed.

Lemma to_array_length df a : to_array df = Ok a -> length a = length (rows df).
Proof. apply mapR_length. Qed.

Lemma from_array_inv a cols df :
  from_array a cols = Ok df -> df = frame_of cols (map (map Num) a).
Proof. unfold from_array. destruct (forallb _ _); [|done]. by intros [= <-]. Qed.

Lemma iloc_series_name s positions s' :
  iloc_series s positions = Ok s' -> sname s' = sname s.
Proof.
  unfold iloc_series. by intros (ls & _ & (vs & _ & [= <-])%bind_Ok)%bind_Ok.
Qed.

End Join.

Section Target.

Context `{Sklearn}.

Lemma split_inv X y w X_train X_test y_train y_test w1 :
  split X y w = (Ok (X_train, X_test, y_train, y_test), w1) ->
  w1 = w /\
  length (rows X_train) = length (svalues y_train) /\
  length (rows X_test) = length (svalues y_test) /\
  sname y_train = sname y /\ sname y_test = sname y.
Proof.
  unfold split. rewrite train_test_split_seeded. case_bool_decide; [|done].
  intros [= Hsplit <-]. split; [done|].
  apply bind_Ok in Hsplit as ([train test] & _ & Hrest).
  apply bind_Ok in Hrest as (X_train' & HXtr & Hrest).
  apply bind_Ok in Hrest as (X_test' & HXte & Hrest).
  apply bind_Ok in Hrest as (y_train' & Hytr & Hrest).
  apply bind_Ok in Hrest as (y_test' & Hyte & [= <- <- <- <-]).
  rewrite (iloc_length _ _ _ HXtr), (iloc_length _ _ _ HXte),
    (iloc_series_length _ _ _ Hytr), (iloc_series_length _ _ _ Hyte),
    (iloc_series_name _ _ _ Hytr), (iloc_series_name _ _ _ Hyte).
  done.
Qed.

(** The table stored for one subset: the scaled features of each sample
    followed by its target value. *)
Lemma joined_table cols a s df :
  from_array a cols = Ok df ->
  length a = length (svalues s) ->
  let t := concat_columns df (pd.reset_index_series s) in
  columns t = cols ++ [sname s] /\
  cells <$> rows t
    = zip_with (fun (feats : list float) (v : cell) => (Num <$> feats) ++ [v]) a (svalues s).
Proof.
  intros ->%from_array_inv Hlen. cbv zeta.
  rewrite concat_columns_aligned by (by rewrite length_map).
  split; [done|]. rewrite frame_of_cells.
  change (map (map Num) a) with ((fun feats : list float => Num <$> feats) <$> a).
  by rewrite zip_with_fmap_l.
Qed.

End Target.

(** X15. When the persister ends normally, each of the two files holds the
    feature columns followed by the target column, and each of its records
    is the scaled features of one sample followed by the original, unscaled
    target value of the sample at the same position in the split; no record
    is padded or left over. *)
Theorem save_prepared_data_joins_target `{ScalerKeepsRows} X y w w' :
  save_prepared_data X y w = (Ok (), w') ->
  exists X_train X_test y_train y_test a b,
    fst (split X y w) = Ok (X_train, X_test, y_train, y_test) /\
    scale X_train X_test = Ok (a, b) /\
    length a = length (svalues y_train) /\
    length b = length (svalues y_test) /\
    files w' !! "data_train.csv" =
      Some (Csv (columns X ++ [sname y])
              (zip_with (fun (feats : list float) (v : cell) => (Num <$> feats) ++ [v])
                 a (svalues y_train))) /\
    files w' !! "data_test.csv" =
      Some (Csv (columns X ++ [sname y])
              (zip_with (fun (feats : list float) (v : cell) => (Num <$> feats) ++ [v])
                 b (svalues y_test))).
Proof.
  unfold save_prepared_data, mbind, M_bind.
  destruct (split X y w) as [[[[[X_train X_test] y_train] y_test]|e] w1] eqn:Hsplit; [|done].
  apply split_inv in Hsplit as (-> & Hltr & Hlte & Hntr & Hnte).
  unfold lift. destruct (scale X_train X_test) as [[a b]|e] eqn:Hscale; [|done].
  apply scale_fit_on_training in Hscale as Hsc.
  destruct Hsc as (a_train & a_test & sc & Hatr & _ & Htr & Hate & Hte).
  assert (length a = length (svalues y_train)) as Hla.
  { by rewrite (transform_rows _ _ _ Htr), (to_array_length _ _ Hatr). }
  assert (length b = length (svalues y_test)) as Hlb.
  { by rewrite (transform_rows _ _ _ Hte), (to_array_length _ _ Hate). }
  destruct (from_array a (columns X)) as [X_train_final|e] eqn:Hfa; [|done].
  destruct (from_array b (columns X)) as [X_test_final|e] eqn:Hfb; [|done].
  destruct (joined_table _ _ y_train _ Hfa Hla) as [Hc1 Hr1].
  destruct (joined_table _ _ y_test _ Hfb Hlb) as [Hc2 Hr2].
  cbv zeta in Hc1, Hr1, Hc2, Hr2.
  unfold to_csv, print. rewrite Hc1, Hr1, Hc2, Hr2, Hntr, Hnte.
  destruct (write_fault w "data_train.csv"); [done|]. simpl.
  destruct (write_fault w "data_test.csv"); [done|]. simpl.
  intros [= <-]. exists X_train, X_test, y_train, y_test, a, b.
  split_and!; try done; simpl.
  - rewrite lookup_insert_ne by done. by rewrite lookup_insert_eq.
  - by rewrite lookup_insert_eq.
Qed.

(** The plain scaler keeps the rows. *)
Lemma plain_scaler_keeps_rows : @ScalerKeepsRows Plain.sklearn.
Proof.
  intros sc a a'. simpl. unfold Plain.standardize. intros [= <-]. by rewrite length_map.
Qed.

Lemma save_prepared_data_joins_target_witness :
  exists w' recs,
    @save_prepared_data Plain.sklearn Plain.features Plain.outcomes Plain.offline = (Ok (), w') /\
    files w' !! "data_test.csv"
      = Some (Csv ["age"; "serum_creatinine"; "DEATH_EVENT"] recs) /\
    (fun r => last r) <$> recs = [Some (Num 1)].
Proof.
  destruct (@save_prepared_data_joins_target Plain.sklearn plain_scaler_keeps_rows
              Plain.features Plain.outcomes Plain.offline _ ltac:(vm_compute; reflexivity))
    as (X_train & X_test & y_train & y_test & a & b & Hsplit & Hscale & _ & _ & _ & Htest).
  vm_compute in Hsplit. injection Hsplit as <- <- <- <-.
  vm_compute in Hscale. injection Hscale as <- <-.
  eexists _, _. split; [vm_compute; reflexivity|].
  split; [exact Htest|]. vm_compute. reflexivity.
Defined.

(** ** Feature transformer: ages without a bucket *)

Section Unbucketed.

Import F64 F64Facts.

Lemma right_closed_bucket_None x :
  right_closed_bucket x = None <-> PrimFloat.ltb 0 x && PrimFloat.leb x 120 = false.
Proof.
  destruct (isnan x) eqn:Hx.
  { rewrite (right_closed_nan x Hx), (ltb_nan_r 0 x Hx). done. }
  unfold right_closed_bucket.
  rewrite (edge_number 60 eq_refl x Hx), (edge_number 75 eq_refl x Hx),
    (edge_number 120 eq_refl x Hx).
  pose proof (ltb_trans 0 60 x eq_refl) as H060.
  pose proof (ltb_trans 60 75 x eq_refl) as H6075.
  pose proof (ltb_trans 75 120 x eq_refl) as H75120.
  destruct (PrimFloat.ltb 0 x) eqn:H0, (PrimFloat.ltb 60 x) eqn:H60,
    (PrimFloat.ltb 75 x) eqn:H75, (PrimFloat.ltb 120 x) eqn:H120; simpl;
    try (split; done);
    try (specialize (H060 eq_refl)); try (specialize (H6075 eq_refl));
    try (specialize (H75120 eq_refl)); congruence.
Qed.

End Unbucketed.

(** X16. The bucketing step removes no record. A record is left without a
    category exactly when its age is not in (0,120] (zero or below, above
    120, or missing); it stays in the dataset. *)
Theorem age_unbucketed_iff df df' age cat i x :
  bin_age df = Ok df' ->
  pd.getitem df "age" = Ok age ->
  pd.getitem df' "age_category" = Ok cat ->
  svalues age !! i = Some (Num x) ->
  length (rows df') = length (rows df) /\
  (svalues cat !! i = Some (Cat None) <->
   PrimFloat.ltb 0 x && PrimFloat.leb x 120 = false).
Proof.
  intros Hbin Hage Hcat Hi. split.
  - apply bin_age_inv in Hbin as (age' & xs & Hage' & Hxs & ->). simpl.
    rewrite length_zip_with_l_eq; [done|].
    rewrite length_map, (mapR_length _ _ _ Hxs). symmetry. by eapply getitem_length.
  - rewrite (bin_age_lookup _ _ _ _ _ _ Hbin Hage Hcat Hi), cut1_right_closed.
    rewrite <-right_closed_bucket_None. split; [by intros [= ->] | by intros ->].
Qed.

Lemma age_unbucketed_iff_witness :
  exists df' age cat,
    bin_age Plain.edge_ages = Ok df' /\
    pd.getitem Plain.edge_ages "age" = Ok age /\
    pd.getitem df' "age_category" = Ok cat /\
    svalues age !! 0 = Some (Num 0) /\
    length (rows df') = 3 /\
    svalues cat !! 0 = Some (Cat None).
Proof.
  eexists _, _, _. split_and!.
  5: { eapply (age_unbucketed_iff Plain.edge_ages _ _ _ 0 0%float);
       [vm_compute; reflexivity..]. }
  5: { eapply (age_unbucketed_iff Plain.edge_ages _ _ _ 0 0%float);
       [vm_compute; reflexivity..]. }
  all: vm_compute; reflexivity.
Defined.
